(** * ShippingInfo: the shipping-address form of the cart page

    A shallow embedding of
    [apps/core/app/[locale]/(default)/cart/_components/shipping-info.tsx].

    The React component is modelled as a transition system.  Its local
    state is the [FormValues] record held by [useReducer]; user
    interaction and the resolution of the two server actions are the
    events; the calls the component makes to its collaborators
    ([getShippingStates], [submitShippingInfo], [toast.error],
    [hideShippingOptions]) are the effects a transition emits. *)

From Stdlib Require Import String Ascii List Bool NArith ZArith Lia.
From Stdlib Require Import DecimalString DecimalFacts.
From Stdlib Require DecimalPos DecimalN.
Import ListNotations.

Local Open Scope string_scope.
Local Open Scope list_scope.

(** ** The fragment of JavaScript the component relies on *)

Module JS.

(** [s.split(sep)] for a one-character separator: every segment, the
    empty ones included; the result is never empty. *)
Fixpoint split (sep : ascii) (s : string) : list string :=
  match s with
  | EmptyString => [EmptyString]
  | String c rest =>
      if Ascii.eqb c sep
      then EmptyString :: split sep rest
      else match split sep rest with
           | seg :: segs => String c seg :: segs
           | [] => [String c EmptyString]
           end
  end.

(** Truthiness of a string: every string but the empty one. *)
Definition truthy (s : string) : bool :=
  match s with
  | EmptyString => false
  | String _ _ => true
  end.

(** Truthiness of [string | undefined]. *)
Definition truthy_opt (o : option string) : bool :=
  match o with
  | Some s => truthy s
  | None => false
  end.

(** [o || ''] for [o : string | null | undefined]. *)
Definition or_empty (o : option string) : string :=
  match o with
  | Some s => if truthy s then s else ""
  | None => ""
  end.

(** [`${n}`] for a non-negative integer below 1e21: its decimal
    digits. *)
Definition toString (n : N) : string :=
  NilEmpty.string_of_uint (N.to_uint n).

(** [arr.find(p)]. *)
Definition find {A : Type} (p : A -> bool) (arr : list A) : option A :=
  List.find p arr.

(** [a || b] on [object | undefined]. *)
Definition or_else {A : Type} (a b : option A) : option A :=
  match a with
  | Some x => Some x
  | None => b
  end.

Definition MAX_SAFE_INTEGER : N := 9007199254740991.

End JS.

(** The argument [Number(countryId)] of [getShippingStates] is kept as
    the string it is converted from. *)
Inductive JsNumber : Type :=
| Number (s : string).

(** The value of [Number(s)] where [s] is a string of decimal digits
    that denotes a safe integer; [None] on every other string, which
    this development does not evaluate. *)
Definition integer_value (n : JsNumber) : option N :=
  match n with
  | Number s =>
      match NilEmpty.uint_of_string s with
      | Some d =>
          if (N.of_uint d <=? JS.MAX_SAFE_INTEGER)%N
          then Some (N.of_uint d) else None
      | None => None
      end
  end.

(** ** Data model *)

(** One entry of [StatesList]. *)
Record StateRecord : Type := {
  id : N;
  state_name : string;          (* field [state] *)
  state_abbreviation : string;
  country_id : N
}.

Definition StatesList : Type := list StateRecord.

(** [interface FormValues]. *)
Record FormValues : Type := {
  country : string;
  states : option StatesList;   (* [None] is [null] *)
  state : string;
  city : string;
  postcode : string
}.

(** [Partial<FormValues>]: a field is [Some v] when the update names
    it. *)
Record PartialFormValues : Type := {
  new_country : option string;
  new_states : option (option StatesList);
  new_state : option string;
  new_city : option string;
  new_postcode : option string
}.

(** The object spread of one field: the new value when present. *)
Definition spread {A : Type} (current : A) (new : option A) : A :=
  match new with
  | Some v => v
  | None => current
  end.

(** The reducer passed to [useReducer]:
    [(currentValues, newValues) => ({...currentValues, ...newValues})]. *)
Definition reducer (currentValues : FormValues)
    (newValues : PartialFormValues) : FormValues :=
  {| country := spread (country currentValues) (new_country newValues);
     states := spread (states currentValues) (new_states newValues);
     state := spread (state currentValues) (new_state newValues);
     city := spread (city currentValues) (new_city newValues);
     postcode := spread (postcode currentValues) (new_postcode newValues) |}.

(** *** The props: the parts of [getCheckout] and [getShippingCountries]
    the component reads *)

Record Address : Type := {
  addr_countryCode : string;
  stateOrProvince : option string;
  addr_city : option string;
  postalCode : option string
}.

Record ShippingOption : Type := {
  option_entityId : string
}.

Record Consignment : Type := {
  consignment_entityId : string;
  selectedShippingOption : option ShippingOption;
  address : Address
}.

Record PhysicalItem : Type := {
  item_entityId : string;
  item_name : string;
  quantity : Z
}.

Record Cart : Type := {
  physicalItems : list PhysicalItem   (* [lineItems.physicalItems] *)
}.

Record Checkout : Type := {
  entityId : string;
  cart : option Cart;
  shippingConsignments : option (list Consignment)
}.

Record ShippingCountry : Type := {
  sc_id : N;
  countryCode : string;
  sc_name : string
}.

(** The function returned by [useTranslations]: its reference identity
    (what a dependency list compares) and what it maps a key to. *)
Record Translator : Type := {
  t_ref : nat;
  translate : string -> string
}.

(** What one render of the component sees. *)
Record Env : Type := {
  checkout : Checkout;
  shippingCountries : list ShippingCountry;
  isVisible : bool;
  t : Translator
}.

(** *** Results of the server actions *)

Record StatesResult : Type := {
  states_status : string;
  data : option StatesList
}.

Record SubmitResult : Type := {
  submit_status : string
}.

Definition FormData : Type := list (string * string).

Record LineItem : Type := {
  lineItemEntityId : string;
  li_quantity : Z
}.

Record SubmitArgs : Type := {
  checkoutId : string;
  lineItems : list LineItem;
  shippingId : string
}.

(** ** The component *)

(** [(consignment) => consignment.selectedShippingOption] as the
    predicate of [find]: an object is truthy, [null] is not. *)
Definition has_selectedShippingOption (consignment : Consignment) : bool :=
  match selectedShippingOption consignment with
  | Some _ => true
  | None => false
  end.

(** [shippingConsignment]: the first consignment with a selected
    shipping option, or else the first consignment. *)
Definition shippingConsignment (c : Checkout) : option Consignment :=
  JS.or_else
    (match shippingConsignments c with
     | Some cs =>
         JS.find has_selectedShippingOption cs
     | None => None
     end)
    (match shippingConsignments c with
     | Some cs => nth_error cs 0
     | None => None
     end).

(** [country.countryCode === shippingConsignment?.address.countryCode]. *)
Definition countryCode_matches (sc : option Consignment)
    (country : ShippingCountry) : bool :=
  match sc with
  | Some consignment =>
      String.eqb (countryCode country) (addr_countryCode (address consignment))
  | None => false
  end.

Definition selectedShippingCountry (e : Env) : option ShippingCountry :=
  JS.find (countryCode_matches (shippingConsignment (checkout e)))
    (shippingCountries e).

(** The value of a country's [SelectItem]: [`${countryCode}-${id}`]. *)
Definition country_value (c : ShippingCountry) : string :=
  countryCode c ++ "-" ++ JS.toString (sc_id c).

(** [shippingConsignment?.address.<field> || '']. *)
Definition address_field (sc : option Consignment)
    (field : Address -> option string) : string :=
  match sc with
  | Some consignment => JS.or_empty (field (address consignment))
  | None => ""
  end.

(** The initial state given to [useReducer]. *)
Definition initialValues (e : Env) : FormValues :=
  {| country := match selectedShippingCountry e with
                | Some c => country_value c
                | None => ""
                end;
     states := Some [];
     state := address_field (shippingConsignment (checkout e)) stateOrProvince;
     city := address_field (shippingConsignment (checkout e)) addr_city;
     postcode := address_field (shippingConsignment (checkout e)) postalCode |}.

(** *** Effects and suspended calls *)

(** What the component does to the outside world. *)
Inductive Effect : Type :=
| getShippingStates (countryId : JsNumber)
| submitShippingInfo (formData : FormData) (args : SubmitArgs)
| toast_error (message : string)
| hideShippingOptions.

(** An [async] function suspended at its [await]. *)
Inductive Pending : Type :=
| fetchStates_awaiting (countryId : JsNumber)
| onSubmit_awaiting (t0 : Translator).

(** [value.split('-')[1]]. *)
Definition countryId_of (value : string) : option string :=
  nth_error (JS.split "-" value) 1.

(** The body of the [useEffect]: the [getShippingStates] calls it
    starts. *)
Definition effect_body (fv : FormValues) : list JsNumber :=
  if JS.truthy (country fv) then
    match countryId_of (country fv) with
    | Some countryId =>
        if JS.truthy countryId then [Number countryId] else []
    | None => []
    end
  else [].

(** [fetchStates] after its [await]: the update it dispatches. *)
Definition fetchStates_resume (r : StatesResult) : PartialFormValues :=
  match String.eqb (states_status r) "success", data r with
  | true, Some d =>
      {| new_country := None; new_states := Some (Some d); new_state := None;
         new_city := None; new_postcode := None |}
  | _, _ =>
      {| new_country := None; new_states := Some None; new_state := None;
         new_city := None; new_postcode := None |}
  end.

(** The second argument [onSubmit] passes to [submitShippingInfo]. *)
Definition onSubmit_args (e : Env) : SubmitArgs :=
  {| checkoutId := entityId (checkout e);
     lineItems :=
       match cart (checkout e) with
       | Some c =>
           map (fun item =>
                  {| lineItemEntityId := item_entityId item;
                     li_quantity := quantity item |})
             (physicalItems c)
       | None => []
       end;
     shippingId :=
       match shippingConsignment (checkout e) with
       | Some consignment => consignment_entityId consignment
       | None => ""
       end |}.

(** [onSubmit] after its [await]. *)
Definition onSubmit_resume (t0 : Translator) (r : SubmitResult) : list Effect :=
  if String.eqb (submit_status r) "error"
  then [toast_error (translate t0 "errorMessage")]
  else [].

(** [resetFormFieldsOnCountryChange], closed over the [formValues] of
    the render that created it: the updates it dispatches and the
    callbacks it invokes. *)
Definition resetFormFieldsOnCountryChange (fv : FormValues)
  : list PartialFormValues * list Effect :=
  if JS.truthy (country fv) then
    ([ {| new_country := None; new_states := Some (Some []);
          new_state := Some ""; new_city := Some "";
          new_postcode := Some "" |} ],
     [hideShippingOptions])
  else ([], []).

(** [onValueChange] of the country [Select]. *)
Definition onCountryChange (fv : FormValues) (value : string)
  : list PartialFormValues * list Effect :=
  let first :=
    if JS.truthy_opt (countryId_of value)
    then {| new_country := Some value; new_states := None; new_state := None;
            new_city := None; new_postcode := None |}
    else {| new_country := Some ""; new_states := None; new_state := None;
            new_city := None; new_postcode := None |} in
  let '(updates, effects) := resetFormFieldsOnCountryChange fv in
  (first :: updates, effects).

(** [setFormValues] applied to the queued updates, in order. *)
Definition dispatch_all (fv : FormValues) (updates : list PartialFormValues)
  : FormValues :=
  fold_left reducer updates fv.

(** *** Rendering of the state field *)

Inductive StateField : Type :=
| StateSelect (disabled : bool) (items : list (N * string)) (value : string)
| StateInput (value : string).

Definition render_state_field (fv : FormValues) : StateField :=
  match states fv with
  | Some l =>
      StateSelect (Nat.eqb (length l) 0)
        (map (fun s => (id s, state_name s)) l) (state fv)
  | None => StateInput (state fv)
  end.

(** The items of the country [Select]. *)
Definition country_items (e : Env) : list (N * string * string) :=
  map (fun c => (sc_id c, country_value c, sc_name c)) (shippingCountries e).

(** A string without the separator of the items' values. *)
Fixpoint hyphen_free (s : string) : bool :=
  match s with
  | EmptyString => true
  | String c rest => negb (Ascii.eqb c "-") && hyphen_free rest
  end.

(** "The first element of the list that satisfies [P]", as a
    specification of [find]. *)
Inductive first_such {A : Type} (P : A -> Prop) : list A -> A -> Prop :=
| first_here (x : A) (l : list A) :
    P x -> first_such P (x :: l) x
| first_later (y : A) (l : list A) (x : A) :
    ~ P y -> first_such P l x -> first_such P (y :: l) x.

(** "The field, or the empty string". *)
Definition field_or_empty (o : option string) : string :=
  match o with
  | Some s => s
  | None => ""
  end.

(** *** The mounted component as a transition system *)

Record Component : Type := {
  env : Env;                    (* props and [t] of the last render *)
  formValues : FormValues;
  pending : list Pending        (* calls not yet resolved, oldest first *)
}.

Inductive Event : Type :=
| CountryChange (value : string)          (* country [Select] *)
| StateChange (value : string)            (* state [Select] or [Input] *)
| CityChange (value : string)
| PostcodeChange (value : string)
| Submit (formData : FormData)            (* the form's [action] *)
| StatesResolved (i : nat) (r : StatesResult)
| SubmitResolved (i : nat) (r : SubmitResult)
| Rerender (e : Env).                     (* the parent renders again *)

(** The dependency list [[formValues.country, t]] compared with the one
    of the previous render. *)
Definition deps_changed (old_fv new_fv : FormValues)
    (old_t new_t : Translator) : bool :=
  negb (String.eqb (country old_fv) (country new_fv)
        && Nat.eqb (t_ref old_t) (t_ref new_t)).

(** One render after an event: the queued updates go through the
    reducer, then the effect runs when a dependency changed. *)
Definition commit (c : Component) (e' : Env)
    (updates : list PartialFormValues) (effects : list Effect)
    (pending' : list Pending) : Component * list Effect :=
  let fv' := dispatch_all (formValues c) updates in
  let fetches :=
    if deps_changed (formValues c) fv' (t (env c)) (t e')
    then effect_body fv' else [] in
  ({| env := e'; formValues := fv';
      pending := pending' ++ map fetchStates_awaiting fetches |},
   effects ++ map getShippingStates fetches).

(** The first render: the effect always runs. *)
Definition mount (e : Env) : Component * list Effect :=
  let fv := initialValues e in
  let fetches := effect_body fv in
  ({| env := e; formValues := fv;
      pending := map fetchStates_awaiting fetches |},
   map getShippingStates fetches).

Fixpoint remove_nth {A : Type} (i : nat) (l : list A) : list A :=
  match i, l with
  | _, [] => []
  | O, _ :: l' => l'
  | S i', x :: l' => x :: remove_nth i' l'
  end.

Definition set_state (value : string) : PartialFormValues :=
  {| new_country := None; new_states := None; new_state := Some value;
     new_city := None; new_postcode := None |}.

Definition set_city (value : string) : PartialFormValues :=
  {| new_country := None; new_states := None; new_state := None;
     new_city := Some value; new_postcode := None |}.

Definition set_postcode (value : string) : PartialFormValues :=
  {| new_country := None; new_states := None; new_state := None;
     new_city := None; new_postcode := Some value |}.

(** One transition; [None] when the event cannot occur (it resolves a
    call that is not pending). *)
Definition step (c : Component) (ev : Event)
  : option (Component * list Effect) :=
  match ev with
  | CountryChange value =>
      let '(updates, effects) := onCountryChange (formValues c) value in
      Some (commit c (env c) updates effects (pending c))
  | StateChange value =>
      Some (commit c (env c) [set_state value] [] (pending c))
  | CityChange value =>
      Some (commit c (env c) [set_city value] [] (pending c))
  | PostcodeChange value =>
      Some (commit c (env c) [set_postcode value] [] (pending c))
  | Submit formData =>
      Some (commit c (env c) []
              [submitShippingInfo formData (onSubmit_args (env c))]
              (pending c ++ [onSubmit_awaiting (t (env c))]))
  | StatesResolved i r =>
      match nth_error (pending c) i with
      | Some (fetchStates_awaiting _) =>
          Some (commit c (env c) [fetchStates_resume r] []
                  (remove_nth i (pending c)))
      | _ => None
      end
  | SubmitResolved i r =>
      match nth_error (pending c) i with
      | Some (onSubmit_awaiting t0) =>
          Some (commit c (env c) [] (onSubmit_resume t0 r)
                  (remove_nth i (pending c)))
      | _ => None
      end
  | Rerender e' =>
      Some (commit c e' [] [] (pending c))
  end.

(** A sequence of events, with the effects in the order they occur. *)
Fixpoint run (c : Component) (evs : list Event)
  : option (Component * list Effect) :=
  match evs with
  | [] => Some (c, [])
  | ev :: evs' =>
      match step c ev with
      | Some (c', effects) =>
          match run c' evs' with
          | Some (c'', effects') => Some (c'', effects ++ effects')
          | None => None
          end
      | None => None
      end
  end.

(** The effects of one kind. *)
Definition states_calls (effects : list Effect) : list JsNumber :=
  flat_map (fun eff => match eff with
                       | getShippingStates n => [n]
                       | _ => []
                       end) effects.

Definition submit_calls (effects : list Effect)
  : list (FormData * SubmitArgs) :=
  flat_map (fun eff => match eff with
                       | submitShippingInfo fd args => [(fd, args)]
                       | _ => []
                       end) effects.

Definition toasts (effects : list Effect) : list string :=
  flat_map (fun eff => match eff with
                       | toast_error m => [m]
                       | _ => []
                       end) effects.

Definition hide_calls (effects : list Effect) : nat :=
  length (filter (fun eff => match eff with
                             | hideShippingOptions => true
                             | _ => false
                             end) effects).

(** A fetch that is not a success with data. *)
Definition fetch_failed (r : StatesResult) : bool :=
  negb (String.eqb (states_status r) "success"
        && match data r with Some _ => true | None => false end).

Definition fetch_in_flight (c : Component) : bool :=
  existsb (fun p => match p with
                    | fetchStates_awaiting _ => true
                    | _ => false
                    end) (pending c).

(** *** Observations on transitions *)

(** The effects of a transition: those of the event's handler, then the
    lookups started by the effect when a dependency changed. *)
Definition handler_effects (c : Component) (ev : Event) : list Effect :=
  match ev with
  | CountryChange value => snd (onCountryChange (formValues c) value)
  | Submit formData => [submitShippingInfo formData (onSubmit_args (env c))]
  | SubmitResolved i r =>
      match nth_error (pending c) i with
      | Some (onSubmit_awaiting t0) => onSubmit_resume t0 r
      | _ => []
      end
  | _ => []
  end.

(** The updates an event's handler dispatches, the calls it leaves
    pending and the props of the render that follows. *)
Definition handler_updates (c : Component) (ev : Event)
  : list PartialFormValues :=
  match ev with
  | CountryChange value => fst (onCountryChange (formValues c) value)
  | StateChange value => [set_state value]
  | CityChange value => [set_city value]
  | PostcodeChange value => [set_postcode value]
  | StatesResolved _ r => [fetchStates_resume r]
  | _ => []
  end.

Definition handler_pending (c : Component) (ev : Event) : list Pending :=
  match ev with
  | Submit _ => pending c ++ [onSubmit_awaiting (t (env c))]
  | StatesResolved i _ | SubmitResolved i _ => remove_nth i (pending c)
  | _ => pending c
  end.

Definition handler_env (c : Component) (ev : Event) : Env :=
  match ev with
  | Rerender e' => e'
  | _ => env c
  end.

(** The resolution of a state lookup. *)
Definition is_resolution (ev : Event) : bool :=
  match ev with
  | StatesResolved _ _ => true
  | _ => false
  end.

(** The events that can start a call. *)
Definition may_call (ev : Event) : bool :=
  match ev with
  | CountryChange _ | Rerender _ | Submit _ => true
  | _ => false
  end.

(** A country value the effect starts a lookup for: its id part
    [split('-')[1]] is present and non-empty. *)
Definition has_id_part (value : string) : bool :=
  JS.truthy_opt (countryId_of value).

(** The submissions of a sequence of events that resolve with status
    'error', and the form data of its submissions, in order. *)
Definition failed_submissions (evs : list Event) : nat :=
  length (filter (fun ev => match ev with
                            | SubmitResolved _ r =>
                                String.eqb (submit_status r) "error"
                            | _ => false
                            end) evs).

Definition submitted_forms (evs : list Event) : list FormData :=
  flat_map (fun ev => match ev with
                      | Submit formData => [formData]
                      | _ => []
                      end) evs.

(** The events after which the effect can run: a country selection or
    a render by the parent. *)
Definition may_run_effect (ev : Event) : bool :=
  match ev with
  | CountryChange _ | Rerender _ => true
  | _ => false
  end.

(** The country selections of a sequence of events. *)
Definition is_country_change (ev : Event) : bool :=
  match ev with
  | CountryChange _ => true
  | _ => false
  end.

(** ** Sample inputs *)

Module Sample.

Definition texas : StateRecord :=
  {| id := 57; state_name := "Texas"; state_abbreviation := "TX";
     country_id := 226 |}.

Definition us : ShippingCountry :=
  {| sc_id := 226; countryCode := "US"; sc_name := "United States" |}.

Definition ca : ShippingCountry :=
  {| sc_id := 38; countryCode := "CA"; sc_name := "Canada" |}.

Definition austin : Address :=
  {| addr_countryCode := "US"; stateOrProvince := Some "Texas";
     addr_city := Some "Austin"; postalCode := Some "78701" |}.

Definition toronto : Address :=
  {| addr_countryCode := "CA"; stateOrProvince := Some "Ontario";
     addr_city := None; postalCode := Some "" |}.

Definition first_consignment : Consignment :=
  {| consignment_entityId := "c-1"; selectedShippingOption := None;
     address := toronto |}.

Definition chosen_consignment : Consignment :=
  {| consignment_entityId := "c-2";
     selectedShippingOption := Some {| option_entityId := "opt-7" |};
     address := austin |}.

Definition english : Translator :=
  {| t_ref := 0;
     translate := fun key => ("Cart.ShippingInfo." ++ key)%string |}.

Definition full_checkout : Checkout :=
  {| entityId := "chk-1";
     cart := Some {| physicalItems :=
                       [ {| item_entityId := "li-1"; item_name := "Mug";
                            quantity := 2 |};
                         {| item_entityId := "li-2"; item_name := "Cap";
                            quantity := 1 |} ] |};
     shippingConsignments := Some [first_consignment; chosen_consignment] |}.

Definition bare_checkout : Checkout :=
  {| entityId := "chk-2"; cart := None; shippingConsignments := None |}.

Definition full_env : Env :=
  {| checkout := full_checkout; shippingCountries := [ca; us];
     isVisible := true; t := english |}.

Definition bare_env : Env :=
  {| checkout := bare_checkout; shippingCountries := [ca; us];
     isVisible := true; t := english |}.

(** The same props with a translator of a new identity. *)
Definition reloaded_env : Env :=
  {| checkout := full_checkout; shippingCountries := [ca; us];
     isVisible := true;
     t := {| t_ref := 1; translate := translate english |} |}.

(** Consignments none of which has a selected shipping option. *)
Definition other_consignment : Consignment :=
  {| consignment_entityId := "c-3"; selectedShippingOption := None;
     address := austin |}.

Definition unselected_env : Env :=
  {| checkout :=
       {| entityId := "chk-3"; cart := None;
          shippingConsignments :=
            Some [first_consignment; other_consignment] |};
     shippingCountries := [ca; us]; isVisible := true; t := english |}.

(** A country whose code contains the separator. *)
Definition hyphenated : ShippingCountry :=
  {| sc_id := 5; countryCode := "X-Y"; sc_name := "Xy" |}.

Definition ok (d : StatesList) : StatesResult :=
  {| states_status := "success"; data := Some d |}.

Definition failure : StatesResult :=
  {| states_status := "error"; data := None |}.

End Sample.

(** ** Basic facts about the transition system *)

Lemma deps_unchanged (fv fv' : FormValues) (t0 : Translator) :
  country fv' = country fv -> deps_changed fv fv' t0 t0 = false.
Proof.
  intros Hc. unfold deps_changed.
  rewrite Hc, String.eqb_refl, Nat.eqb_refl. reflexivity.
Qed.

Lemma commit_formValues c e' updates effects pending' :
  formValues (fst (commit c e' updates effects pending')) =
  dispatch_all (formValues c) updates.
Proof. reflexivity. Qed.

(** A render that keeps the country and the translator runs no effect. *)
Lemma commit_quiet c updates effects pending' :
  country (dispatch_all (formValues c) updates) = country (formValues c) ->
  commit c (env c) updates effects pending' =
  ({| env := env c; formValues := dispatch_all (formValues c) updates;
      pending := pending' |}, effects).
Proof.
  intros Hc. unfold commit.
  rewrite (deps_unchanged _ _ _ Hc). simpl.
  rewrite !List.app_nil_r. reflexivity.
Qed.

Lemma truthy_nonempty (s : string) : JS.truthy s = true <-> s <> "".
Proof. destruct s; simpl; split; congruence. Qed.

Lemma truthy_empty (s : string) : JS.truthy s = false <-> s = "".
Proof. destruct s; simpl; split; congruence. Qed.

Lemma states_calls_app (l1 l2 : list Effect) :
  states_calls (l1 ++ l2) = states_calls l1 ++ states_calls l2.
Proof. unfold states_calls. apply flat_map_app. Qed.

Lemma states_calls_map (l : list JsNumber) :
  states_calls (map getShippingStates l) = l.
Proof. induction l as [|n l IH]; simpl; [reflexivity | now rewrite IH]. Qed.

Lemma submit_calls_app (l1 l2 : list Effect) :
  submit_calls (l1 ++ l2) = submit_calls l1 ++ submit_calls l2.
Proof. unfold submit_calls. apply flat_map_app. Qed.

Lemma submit_calls_map (l : list JsNumber) :
  submit_calls (map getShippingStates l) = [].
Proof. induction l as [|n l IH]; simpl; [reflexivity | exact IH]. Qed.

Lemma toasts_app (l1 l2 : list Effect) :
  toasts (l1 ++ l2) = toasts l1 ++ toasts l2.
Proof. unfold toasts. apply flat_map_app. Qed.

Lemma toasts_map (l : list JsNumber) :
  toasts (map getShippingStates l) = [].
Proof. induction l as [|n l IH]; simpl; [reflexivity | exact IH]. Qed.

(** ** The reducer *)

(** C9.  Every update is merged into the current form state: a field the
    update does not name keeps its value, a field it names takes the new
    one; editing the city, for one, leaves country, states, state and
    postcode as they were and starts no call. *)
Theorem setFormValues_merges (cur : FormValues) (new : PartialFormValues) :
  (new_country new = None -> country (reducer cur new) = country cur) /\
  (new_states new = None -> states (reducer cur new) = states cur) /\
  (new_state new = None -> state (reducer cur new) = state cur) /\
  (new_city new = None -> city (reducer cur new) = city cur) /\
  (new_postcode new = None -> postcode (reducer cur new) = postcode cur) /\
  (forall v, new_country new = Some v -> country (reducer cur new) = v) /\
  (forall v, new_states new = Some v -> states (reducer cur new) = v) /\
  (forall v, new_state new = Some v -> state (reducer cur new) = v) /\
  (forall v, new_city new = Some v -> city (reducer cur new) = v) /\
  (forall v, new_postcode new = Some v -> postcode (reducer cur new) = v) /\
  (forall c value,
      formValues c = cur ->
      exists c',
        step c (CityChange value) = Some (c', []) /\
        city (formValues c') = value /\
        country (formValues c') = country cur /\
        states (formValues c') = states cur /\
        state (formValues c') = state cur /\
        postcode (formValues c') = postcode cur).
Proof.
  repeat split; simpl; try (intros H; rewrite H; reflexivity);
    try (intros v H; rewrite H; reflexivity).
  intros c value Hc. subst cur.
  eexists. unfold step. rewrite commit_quiet by reflexivity.
  repeat split.
Qed.

Lemma setFormValues_merges_witness :
  let cur := formValues (fst (mount Sample.full_env)) in
  country (reducer cur (set_city "Dallas")) = "US-226" /\
  city (reducer cur (set_city "Dallas")) = "Dallas" /\
  exists c',
    step (fst (mount Sample.full_env)) (CityChange "Dallas") = Some (c', []) /\
    postcode (formValues c') = "78701".
Proof.
  intros cur.
  pose proof (setFormValues_merges cur (set_city "Dallas")) as H.
  destruct H as (Hcountry & _ & _ & _ & _ & _ & _ & _ & Hcity & _ & Hstep).
  split; [exact (Hcountry eq_refl) |].
  split; [exact (Hcity "Dallas" eq_refl) |].
  destruct (Hstep (fst (mount Sample.full_env)) "Dallas" eq_refl)
    as (c' & Hs & _ & _ & _ & _ & Hp).
  exists c'. split; [exact Hs | exact Hp].
Defined.

Lemma hide_calls_app (l1 l2 : list Effect) :
  hide_calls (l1 ++ l2) = hide_calls l1 + hide_calls l2.
Proof. unfold hide_calls. now rewrite filter_app, length_app. Qed.

Lemma hide_calls_map (l : list JsNumber) :
  hide_calls (map getShippingStates l) = 0.
Proof. induction l as [|n l IH]; simpl; [reflexivity | exact IH]. Qed.

(** ** Selecting a country *)

(** C8.  Selecting a country while the current country value is
    non-empty resets states to the empty array and state, city and
    postcode to the empty string, and invokes [hideShippingOptions]
    once; while it is empty, only the country field changes and
    [hideShippingOptions] is not invoked. *)
Theorem country_change_resets (c : Component) (value : string) :
  exists c' effects,
    step c (CountryChange value) = Some (c', effects) /\
    country (formValues c') =
      (if JS.truthy_opt (countryId_of value) then value else "") /\
    (country (formValues c) <> "" ->
     states (formValues c') = Some [] /\
     state (formValues c') = "" /\
     city (formValues c') = "" /\
     postcode (formValues c') = "" /\
     hide_calls effects = 1) /\
    (country (formValues c) = "" ->
     states (formValues c') = states (formValues c) /\
     state (formValues c') = state (formValues c) /\
     city (formValues c') = city (formValues c) /\
     postcode (formValues c') = postcode (formValues c) /\
     hide_calls effects = 0).
Proof.
  unfold step, onCountryChange, resetFormFieldsOnCountryChange.
  destruct (JS.truthy (country (formValues c))) eqn:Hold.
  - apply truthy_nonempty in Hold.
    eexists; eexists. split; [reflexivity |].
    unfold commit; cbn [fst snd formValues].
    rewrite hide_calls_app, hide_calls_map.
    split; [destruct (JS.truthy_opt (countryId_of value)); reflexivity |].
    split; [intros _; repeat split | intros Hempty; contradiction].
  - apply truthy_empty in Hold.
    eexists; eexists. split; [reflexivity |].
    unfold commit; cbn [fst snd formValues].
    rewrite hide_calls_app, hide_calls_map.
    split; [destruct (JS.truthy_opt (countryId_of value)); reflexivity |].
    split; [intros Hne; contradiction |].
    intros _. destruct (JS.truthy_opt (countryId_of value)); repeat split.
Qed.

Lemma country_change_resets_witness :
  (exists c' effects,
     step (fst (mount Sample.full_env)) (CountryChange "CA-38") =
       Some (c', effects) /\
     formValues c' =
       {| country := "CA-38"; states := Some []; state := ""; city := "";
          postcode := "" |} /\
     hide_calls effects = 1) /\
  (exists c' effects,
     step (fst (mount Sample.bare_env)) (CountryChange "CA-38") =
       Some (c', effects) /\
     country (formValues c') = "CA-38" /\
     states (formValues c') = Some [] /\
     hide_calls effects = 0).
Proof.
  split.
  - destruct (country_change_resets (fst (mount Sample.full_env)) "CA-38")
      as (c' & effects & Hstep & Hcountry & Hreset & _).
    exists c', effects. split; [exact Hstep |].
    assert (Hne : country (formValues (fst (mount Sample.full_env))) <> "")
      by (vm_compute; discriminate).
    destruct (Hreset Hne) as (Hs & Hst & Hci & Hp & Hhide).
    split; [| exact Hhide].
    destruct c' as [e' [co sts st ci po] pe]; simpl in *.
    subst. reflexivity.
  - destruct (country_change_resets (fst (mount Sample.bare_env)) "CA-38")
      as (c' & effects & Hstep & Hcountry & _ & Hkeep).
    exists c', effects. split; [exact Hstep |].
    destruct (Hkeep eq_refl) as (Hs & _ & _ & _ & Hhide).
    split; [exact Hcountry |]. split; [exact Hs | exact Hhide].
Defined.

(** ** The state list after a lookup *)

(** C1.  When a state lookup completes with anything but a success
    carrying data, states becomes null; and the state field is a
    free-text input exactly when states is null. *)
Theorem failed_fetch_falls_back_to_text_input
    (c : Component) (i : nat) (n : JsNumber) (r : StatesResult)
    (fv : FormValues) :
  (nth_error (pending c) i = Some (fetchStates_awaiting n) ->
   states_status r <> "success" \/ data r = None ->
   exists c',
     step c (StatesResolved i r) = Some (c', []) /\
     states (formValues c') = None /\
     render_state_field (formValues c') = StateInput (state (formValues c))) /\
  (states fv = None <-> render_state_field fv = StateInput (state fv)) /\
  (states fv <> None <-> exists d items v,
       render_state_field fv = StateSelect d items v).
Proof.
  split; [| split].
  - intros Hp Hfail. unfold step. rewrite Hp.
    assert (Hres : fetchStates_resume r =
                   {| new_country := None; new_states := Some None;
                      new_state := None; new_city := None;
                      new_postcode := None |}).
    { unfold fetchStates_resume.
      destruct (String.eqb_spec (states_status r) "success") as [Heq | Hneq].
      - destruct Hfail as [Hs | Hd]; [contradiction | now rewrite Hd].
      - reflexivity. }
    rewrite Hres, commit_quiet by reflexivity.
    eexists. split; [reflexivity |]. split; reflexivity.
  - unfold render_state_field. destruct (states fv); split;
      congruence.
  - unfold render_state_field. destruct (states fv); split.
    + intros _. eauto.
    + intros _. discriminate.
    + intros H. now elim H.
    + intros (d & items & v & H). discriminate.
Qed.

Lemma failed_fetch_falls_back_to_text_input_witness :
  exists c',
    step (fst (mount Sample.full_env)) (StatesResolved 0 Sample.failure) =
      Some (c', []) /\
    states (formValues c') = None /\
    render_state_field (formValues c') = StateInput "Texas".
Proof.
  apply (proj1 (failed_fetch_falls_back_to_text_input
                  (fst (mount Sample.full_env)) 0 (Number "226")
                  Sample.failure (initialValues Sample.full_env))).
  - reflexivity.
  - right. reflexivity.
Defined.

(** C2, as stated, fails: a lookup that succeeds with the empty list
    leaves a (disabled) select, not a text input. *)
Lemma empty_success_is_not_text_input :
  exists c',
    step (fst (mount Sample.full_env)) (StatesResolved 0 (Sample.ok [])) =
      Some (c', []) /\
    render_state_field (formValues c') = StateSelect true [] "Texas" /\
    forall v, render_state_field (formValues c') <> StateInput v.
Proof.
  eexists. split; [vm_compute; reflexivity |].
  split; [reflexivity | intros v; discriminate].
Qed.

(** C2, amended.  When a lookup succeeds with data, states becomes that
    list and the state field is a select over it, disabled exactly when
    the list is empty; so after a success with the empty list the field
    is a disabled select without items, and no text input: a text input
    is rendered only when states is null. *)
Theorem successful_fetch_renders_select
    (c : Component) (i : nat) (n : JsNumber) (d : StatesList) :
  nth_error (pending c) i = Some (fetchStates_awaiting n) ->
  exists c',
    step c (StatesResolved i {| states_status := "success"; data := Some d |})
      = Some (c', []) /\
    states (formValues c') = Some d /\
    render_state_field (formValues c') =
      StateSelect (match d with [] => true | _ :: _ => false end)
        (map (fun s => (id s, state_name s)) d) (state (formValues c)) /\
    (d = [] ->
     render_state_field (formValues c') =
       StateSelect true [] (state (formValues c))) /\
    (forall fv v, render_state_field fv = StateInput v -> states fv = None).
Proof.
  intros Hp. unfold step. rewrite Hp.
  change (fetchStates_resume {| states_status := "success"; data := Some d |})
    with {| new_country := None; new_states := Some (Some d);
            new_state := None; new_city := None; new_postcode := None |}.
  rewrite commit_quiet by reflexivity.
  eexists. split; [reflexivity |]. split; [reflexivity |].
  split; [| split].
  - unfold render_state_field; simpl. destruct d; reflexivity.
  - intros ->. reflexivity.
  - intros fv v. unfold render_state_field.
    destruct (states fv); [discriminate | reflexivity].
Qed.

Lemma successful_fetch_renders_select_witness :
  exists c',
    step (fst (mount Sample.full_env)) (StatesResolved 0 (Sample.ok [])) =
      Some (c', []) /\
    states (formValues c') = Some [] /\
    render_state_field (formValues c') = StateSelect true [] "Texas".
Proof.
  destruct (successful_fetch_renders_select
              (fst (mount Sample.full_env)) 0 (Number "226") [] eq_refl)
    as (c' & Hstep & Hstates & _ & Hempty & _).
  exists c'. split; [exact Hstep |]. split; [exact Hstates |].
  exact (Hempty eq_refl).
Defined.

Ltac step_inv H :=
  unfold commit in H; cbv zeta in H; inversion H; subst; reflexivity.

Lemma step_effects (c : Component) (ev : Event) c' effects :
  step c ev = Some (c', effects) ->
  effects =
    handler_effects c ev ++
    map getShippingStates
      (if deps_changed (formValues c) (formValues c') (t (env c)) (t (env c'))
       then effect_body (formValues c') else []).
Proof.
  destruct ev; unfold step, handler_effects.
  - destruct (onCountryChange (formValues c) value) as [updates effs].
    intros H. step_inv H.
  - intros H. step_inv H.
  - intros H. step_inv H.
  - intros H. step_inv H.
  - intros H. step_inv H.
  - destruct (nth_error (pending c) i) as [[n | t1] |]; try discriminate.
    intros H. step_inv H.
  - destruct (nth_error (pending c) i) as [[n | t1] |]; try discriminate.
    intros H. step_inv H.
  - intros H. step_inv H.
Qed.

Lemma onCountryChange_effects (fv : FormValues) (value : string) :
  snd (onCountryChange fv value) =
  if JS.truthy (country fv) then [hideShippingOptions] else [].
Proof.
  unfold onCountryChange, resetFormFieldsOnCountryChange.
  destruct (JS.truthy (country fv)); reflexivity.
Qed.

(** ** Submission *)

Lemma onSubmit_resume_toasts (t0 : Translator) (r : SubmitResult) :
  toasts (onSubmit_resume t0 r) =
  if String.eqb (submit_status r) "error"
  then [translate t0 "errorMessage"] else [].
Proof.
  unfold onSubmit_resume.
  destruct (String.eqb (submit_status r) "error"); reflexivity.
Qed.

Lemma step_Submit (c : Component) (formData : FormData) :
  step c (Submit formData) =
  Some ({| env := env c; formValues := formValues c;
           pending := pending c ++ [onSubmit_awaiting (t (env c))] |},
        [submitShippingInfo formData (onSubmit_args (env c))]).
Proof.
  unfold step. rewrite commit_quiet by reflexivity. reflexivity.
Qed.

Lemma step_SubmitResolved (c : Component) (i : nat) (t0 : Translator)
    (r : SubmitResult) :
  nth_error (pending c) i = Some (onSubmit_awaiting t0) ->
  step c (SubmitResolved i r) =
  Some ({| env := env c; formValues := formValues c;
           pending := remove_nth i (pending c) |},
        onSubmit_resume t0 r).
Proof.
  intros Hp. unfold step. rewrite Hp.
  rewrite commit_quiet by reflexivity. reflexivity.
Qed.

Lemma nth_error_last {A : Type} (l : list A) (x : A) :
  nth_error (l ++ [x]) (length l) = Some x.
Proof.
  rewrite nth_error_app2 by lia. now rewrite Nat.sub_diag.
Qed.

(** C3.  When a submission resolves, a toast error is shown if and only
    if the result's status is 'error'; no other event of the component
    shows a toast. *)
Theorem toast_iff_submit_error
    (c : Component) (i : nat) (t0 : Translator) (r : SubmitResult)
    (formData : FormData) (ev : Event) :
  (nth_error (pending c) i = Some (onSubmit_awaiting t0) ->
   exists c' effects,
     step c (SubmitResolved i r) = Some (c', effects) /\
     (submit_status r = "error" ->
      effects = [toast_error (translate t0 "errorMessage")]) /\
     (submit_status r <> "error" -> effects = []) /\
     (toasts effects <> [] <-> submit_status r = "error")) /\
  (exists c' effects,
     run c [Submit formData; SubmitResolved (length (pending c)) r] =
       Some (c', effects) /\
     toasts effects =
       if String.eqb (submit_status r) "error"
       then [translate (t (env c)) "errorMessage"] else []) /\
  (forall c' effects,
     step c ev = Some (c', effects) ->
     toasts effects <> [] ->
     exists j r', ev = SubmitResolved j r' /\ submit_status r' = "error").
Proof.
  split; [| split].
  - intros Hp. rewrite (step_SubmitResolved _ _ _ _ Hp).
    eexists; eexists. split; [reflexivity |].
    unfold onSubmit_resume.
    destruct (String.eqb_spec (submit_status r) "error") as [Heq | Hneq].
    + repeat split; try congruence. simpl. discriminate.
    + repeat split; try congruence. simpl. congruence.
  - cbn [run]. rewrite step_Submit.
    rewrite (step_SubmitResolved _ _ (t (env c)) r)
      by (simpl; apply nth_error_last).
    eexists; eexists. split; [reflexivity |].
    simpl. rewrite List.app_nil_r. apply onSubmit_resume_toasts.
  - intros c' effects Hstep Htoast.
    rewrite (step_effects _ _ _ _ Hstep), toasts_app, toasts_map,
      List.app_nil_r in Htoast.
    destruct ev; simpl in Htoast; try (now elim Htoast).
    + rewrite onCountryChange_effects in Htoast.
      destruct (JS.truthy (country (formValues c))); now elim Htoast.
    + destruct (nth_error (pending c) i0) as [[n | t1] |];
        try (now elim Htoast).
      exists i0, r0. split; [reflexivity |].
      rewrite onSubmit_resume_toasts in Htoast.
      destruct (String.eqb_spec (submit_status r0) "error");
        [assumption | now elim Htoast].
Qed.

Lemma toast_iff_submit_error_witness :
  exists c' effects,
    step {| env := Sample.full_env;
            formValues := initialValues Sample.full_env;
            pending := [onSubmit_awaiting Sample.english] |}
         (SubmitResolved 0 {| submit_status := "error" |}) =
      Some (c', effects) /\
    effects = [toast_error "Cart.ShippingInfo.errorMessage"].
Proof.
  destruct (proj1 (toast_iff_submit_error
                     {| env := Sample.full_env;
                        formValues := initialValues Sample.full_env;
                        pending := [onSubmit_awaiting Sample.english] |}
                     0 Sample.english {| submit_status := "error" |}
                     [] (CityChange "")) eq_refl)
    as (c' & effects & Hstep & Herr & _).
  exists c', effects. split; [exact Hstep | exact (Herr eq_refl)].
Defined.

Lemma find_first_such {A : Type} (p : A -> bool) (P : A -> Prop)
    (l : list A) (x : A) :
  (forall a, p a = true <-> P a) ->
  first_such P l x -> JS.find p l = Some x.
Proof.
  intros Hp Hfirst. unfold JS.find.
  induction Hfirst as [x l Hx | y l x Hy _ IH]; simpl.
  - apply Hp in Hx. now rewrite Hx.
  - destruct (p y) eqn:Hpy; [| exact IH].
    apply Hp in Hpy. contradiction.
Qed.

Lemma find_no_such {A : Type} (p : A -> bool) (P : A -> Prop) (l : list A) :
  (forall a, p a = true <-> P a) ->
  (forall a, In a l -> ~ P a) -> JS.find p l = None.
Proof.
  intros Hp Hnone. unfold JS.find.
  induction l as [| y l IH]; simpl; [reflexivity |].
  destruct (p y) eqn:Hpy.
  - apply Hp in Hpy. elim (Hnone y); [now left | assumption].
  - apply IH. intros a Ha. apply Hnone. now right.
Qed.

Lemma has_selectedShippingOption_spec (x : Consignment) :
  has_selectedShippingOption x = true <-> selectedShippingOption x <> None.
Proof.
  unfold has_selectedShippingOption.
  destruct (selectedShippingOption x); split; congruence.
Qed.

(** Which consignment [shippingConsignment] is: the first one with a
    selected shipping option, and the head of the list when none has
    one. *)
Lemma shippingConsignment_first_selected (k : Checkout)
    (cs : list Consignment) (x : Consignment) :
  shippingConsignments k = Some cs ->
  first_such (fun y => selectedShippingOption y <> None) cs x ->
  shippingConsignment k = Some x.
Proof.
  intros Hcs Hfirst. unfold shippingConsignment. rewrite Hcs.
  rewrite (find_first_such _ _ _ _ has_selectedShippingOption_spec Hfirst).
  reflexivity.
Qed.

Lemma shippingConsignment_head (k : Checkout) (cs : list Consignment) :
  shippingConsignments k = Some cs ->
  (forall y, In y cs -> selectedShippingOption y = None) ->
  shippingConsignment k = hd_error cs.
Proof.
  intros Hcs Hnone. unfold shippingConsignment. rewrite Hcs.
  rewrite (find_no_such _ _ _ has_selectedShippingOption_spec).
  - destruct cs; reflexivity.
  - intros y Hy Hsel. apply Hsel, Hnone, Hy.
Qed.

(** The consignment is absent exactly when the checkout lists none. *)
Lemma shippingConsignment_None (k : Checkout) :
  shippingConsignment k = None <->
  shippingConsignments k = None \/ shippingConsignments k = Some [].
Proof.
  unfold shippingConsignment, JS.or_else, JS.find.
  destruct (shippingConsignments k) as [[| x cs] |]; simpl.
  - split; auto.
  - unfold has_selectedShippingOption at 1.
    destruct (selectedShippingOption x); simpl;
      [| destruct (find _ cs)]; split; try discriminate;
      intros [H | H]; discriminate.
  - split; auto.
Qed.

(** C6.  A submission calls [submitShippingInfo] once, with the form
    data and with the checkout's entityId as checkoutId, the cart's
    physical items as (lineItemEntityId, quantity) pairs (none without a
    cart), and as shippingId the entityId of the selected consignment:
    the first consignment with a selected shipping option, or else the
    first consignment, and the empty string when there is none. *)
Theorem submit_arguments (c : Component) (formData : FormData) :
  exists c' args,
    step c (Submit formData) = Some (c', [submitShippingInfo formData args]) /\
    checkoutId args = entityId (checkout (env c)) /\
    (forall k, cart (checkout (env c)) = Some k ->
       lineItems args =
       map (fun item => {| lineItemEntityId := item_entityId item;
                           li_quantity := quantity item |})
         (physicalItems k)) /\
    (forall k, cart (checkout (env c)) = Some k ->
       map (fun li => (lineItemEntityId li, li_quantity li)) (lineItems args) =
       map (fun item => (item_entityId item, quantity item))
         (physicalItems k)) /\
    (cart (checkout (env c)) = None -> lineItems args = []) /\
    (forall cs x,
       shippingConsignments (checkout (env c)) = Some cs ->
       first_such (fun y => selectedShippingOption y <> None) cs x ->
       shippingId args = consignment_entityId x) /\
    (forall cs x,
       shippingConsignments (checkout (env c)) = Some cs ->
       (forall y, In y cs -> selectedShippingOption y = None) ->
       hd_error cs = Some x ->
       shippingId args = consignment_entityId x) /\
    (forall sc, shippingConsignment (checkout (env c)) = Some sc ->
       shippingId args = consignment_entityId sc) /\
    (shippingConsignments (checkout (env c)) = None \/
     shippingConsignments (checkout (env c)) = Some [] ->
     shippingId args = "") /\
    formValues c' = formValues c.
Proof.
  rewrite step_Submit. eexists; eexists. split; [reflexivity |].
  unfold onSubmit_args; simpl.
  split; [reflexivity |].
  split; [intros k ->; reflexivity |].
  split; [intros k ->; rewrite map_map; reflexivity |].
  split; [intros ->; reflexivity |].
  split.
  { intros cs x Hcs Hfirst.
    now rewrite (shippingConsignment_first_selected _ _ _ Hcs Hfirst). }
  split.
  { intros cs x Hcs Hnone Hhd.
    now rewrite (shippingConsignment_head _ _ Hcs Hnone), Hhd. }
  split; [intros sc ->; reflexivity |].
  split; [| reflexivity].
  intros H. apply shippingConsignment_None in H. now rewrite H.
Qed.

Lemma submit_arguments_witness :
  (exists c' args,
     step (fst (mount Sample.full_env)) (Submit [("city", "Austin")]) =
       Some (c', [submitShippingInfo [("city", "Austin")] args]) /\
     checkoutId args = "chk-1" /\
     lineItems args =
       [ {| lineItemEntityId := "li-1"; li_quantity := 2 |};
         {| lineItemEntityId := "li-2"; li_quantity := 1 |} ] /\
     shippingId args = "c-2") /\
  (exists c' args,
     step {| env := Sample.unselected_env;
             formValues := initialValues Sample.unselected_env;
             pending := [] |} (Submit []) =
       Some (c', [submitShippingInfo [] args]) /\
     lineItems args = [] /\
     shippingId args = "c-1") /\
  (exists c' args,
     step (fst (mount Sample.bare_env)) (Submit []) =
       Some (c', [submitShippingInfo [] args]) /\
     lineItems args = [] /\
     shippingId args = "").
Proof.
  split; [| split].
  - destruct (submit_arguments (fst (mount Sample.full_env))
                [("city", "Austin")])
      as (c' & args & Hstep & Hid & Hitems & _ & _ & Hsel & _).
    exists c', args. split; [exact Hstep |]. split; [exact Hid |].
    split; [exact (Hitems _ eq_refl) |].
    apply (Hsel [Sample.first_consignment; Sample.chosen_consignment]
             Sample.chosen_consignment eq_refl).
    apply first_later; [intros H; now apply H |].
    apply first_here. discriminate.
  - destruct (submit_arguments
                {| env := Sample.unselected_env;
                   formValues := initialValues Sample.unselected_env;
                   pending := [] |} [])
      as (c' & args & Hstep & _ & _ & _ & Hnocart & _ & Hhead & _).
    exists c', args. split; [exact Hstep |].
    split; [exact (Hnocart eq_refl) |].
    apply (Hhead [Sample.first_consignment; Sample.other_consignment]
             Sample.first_consignment eq_refl).
    + intros y [<- | [<- | []]]; reflexivity.
    + reflexivity.
  - destruct (submit_arguments (fst (mount Sample.bare_env)) [])
      as (c' & args & Hstep & _ & _ & _ & Hnocart & _ & _ & _ & Hnone & _).
    exists c', args. split; [exact Hstep |].
    split; [exact (Hnocart eq_refl) |].
    apply Hnone. left. reflexivity.
Defined.

(** ** The lookup started by a country change *)

Lemma step_CountryChange (c : Component) (value : string) :
  step c (CountryChange value) =
  Some (commit c (env c)
          (fst (onCountryChange (formValues c) value))
          (snd (onCountryChange (formValues c) value)) (pending c)).
Proof.
  unfold step. destruct (onCountryChange (formValues c) value). reflexivity.
Qed.

Lemma onCountryChange_country (fv : FormValues) (value : string) :
  country (dispatch_all fv (fst (onCountryChange fv value))) =
  if JS.truthy_opt (countryId_of value) then value else "".
Proof.
  unfold onCountryChange, resetFormFieldsOnCountryChange.
  destruct (JS.truthy (country fv));
    destruct (JS.truthy_opt (countryId_of value)); reflexivity.
Qed.

Lemma states_calls_onCountryChange (fv : FormValues) (value : string) :
  states_calls (snd (onCountryChange fv value)) = [].
Proof.
  rewrite onCountryChange_effects.
  destruct (JS.truthy (country fv)); reflexivity.
Qed.

Lemma countryId_of_empty : countryId_of "" = None.
Proof. reflexivity. Qed.

(** The effect starts a lookup exactly for a country value with a
    non-empty id part. *)
Lemma effect_body_some (fv : FormValues) (cid : string) :
  countryId_of (country fv) = Some cid -> cid <> "" ->
  effect_body fv = [Number cid].
Proof.
  intros Hid Hne. unfold effect_body.
  destruct (country fv) as [| a s] eqn:Hc.
  - discriminate.
  - simpl JS.truthy. cbv iota. rewrite Hid.
    apply truthy_nonempty in Hne. now rewrite Hne.
Qed.

Lemma effect_body_none (fv : FormValues) :
  JS.truthy_opt (countryId_of (country fv)) = false ->
  effect_body fv = [].
Proof.
  intros H. unfold effect_body.
  destruct (JS.truthy (country fv)); [| reflexivity].
  destruct (countryId_of (country fv)) as [cid |]; [| reflexivity].
  simpl in H. now rewrite H.
Qed.

Lemma no_id_part (value : string) :
  value = "" \/ countryId_of value = None \/ countryId_of value = Some "" ->
  JS.truthy_opt (countryId_of value) = false.
Proof.
  intros [-> | [-> | ->]]; reflexivity.
Qed.

(** [Number] of the decimal digits of a safe integer is that integer. *)
Lemma integer_value_toString (n : N) :
  (n <= JS.MAX_SAFE_INTEGER)%N ->
  integer_value (Number (JS.toString n)) = Some n.
Proof.
  intros Hn. unfold integer_value, JS.toString.
  rewrite NilEmpty.usu, DecimalN.Unsigned.of_to.
  apply N.leb_le in Hn. now rewrite Hn.
Qed.

Lemma split_hyphen_free (s : string) :
  hyphen_free s = true -> JS.split "-" s = [s].
Proof.
  induction s as [| a s IH]; simpl; [reflexivity |].
  intros H. apply andb_prop in H as [Ha Hs].
  apply negb_true_iff in Ha. rewrite Ha, (IH Hs). reflexivity.
Qed.

Lemma split_prefix (code rest : string) :
  hyphen_free code = true ->
  JS.split "-" (code ++ String "-" rest) = code :: JS.split "-" rest.
Proof.
  induction code as [| a code IH]; simpl; [reflexivity |].
  intros H. apply andb_prop in H as [Ha Hs].
  apply negb_true_iff in Ha. rewrite Ha, (IH Hs). reflexivity.
Qed.

Lemma string_of_uint_hyphen_free (d : Decimal.uint) :
  hyphen_free (NilEmpty.string_of_uint d) = true.
Proof. induction d; simpl; auto. Qed.

Lemma toString_nonempty (n : N) : JS.toString n <> "".
Proof.
  unfold JS.toString. destruct n as [| p]; simpl; [discriminate |].
  pose proof (DecimalPos.Unsigned.to_uint_nonnil p) as Hp.
  destruct (Pos.to_uint p); simpl; congruence.
Qed.

(** The id part of a [SelectItem] value is the decimal id of its
    country. *)
Lemma countryId_of_country_value (sc : ShippingCountry) :
  hyphen_free (countryCode sc) = true ->
  countryId_of (country_value sc) = Some (JS.toString (sc_id sc)).
Proof.
  intros Hcode. unfold countryId_of, country_value.
  change ("-" ++ JS.toString (sc_id sc))%string
    with (String "-" (JS.toString (sc_id sc))).
  rewrite (split_prefix _ _ Hcode).
  rewrite split_hyphen_free by apply string_of_uint_hyphen_free.
  reflexivity.
Qed.

(** Every item of the country [Select] carries the value built from one
    of the shipping countries. *)
Lemma country_items_values (e : Env) (i : N) (value name : string) :
  In (i, value, name) (country_items e) ->
  exists sc,
    In sc (shippingCountries e) /\ i = sc_id sc /\
    value = country_value sc.
Proof.
  unfold country_items. intros H. apply in_map_iff in H as (sc & Heq & Hin).
  exists sc. inversion Heq; subst. repeat split. exact Hin.
Qed.

(** C4.  Changing the selected country to a value with a non-empty id
    part starts exactly one [getShippingStates] call, on the number
    converted from the part after the hyphen (for the value of a select
    item, the id of that country); for an empty value or one without id
    part no call is started. *)
Theorem country_change_triggers_one_fetch
    (c : Component) (value cid : string) (sc : ShippingCountry)
    (fv : FormValues) :
  (countryId_of value = Some cid -> cid <> "" ->
   country (formValues c) <> value ->
   exists c' effects,
     step c (CountryChange value) = Some (c', effects) /\
     states_calls effects = [Number cid] /\
     pending c' = pending c ++ [fetchStates_awaiting (Number cid)] /\
     country (formValues c') = value) /\
  (hyphen_free (countryCode sc) = true ->
   (sc_id sc <= JS.MAX_SAFE_INTEGER)%N ->
   country (formValues c) <> country_value sc ->
   exists c' effects k,
     step c (CountryChange (country_value sc)) = Some (c', effects) /\
     states_calls effects = [k] /\
     integer_value k = Some (sc_id sc)) /\
  (value = "" \/ countryId_of value = None \/ countryId_of value = Some "" ->
   exists c' effects,
     step c (CountryChange value) = Some (c', effects) /\
     states_calls effects = [] /\
     pending c' = pending c /\
     country (formValues c') = "") /\
  (country fv = "" \/ countryId_of (country fv) = None \/
   countryId_of (country fv) = Some "" ->
   effect_body fv = []).
Proof.
  assert (Hone : forall v k,
             countryId_of v = Some k -> k <> "" ->
             country (formValues c) <> v ->
             exists c' effects,
               step c (CountryChange v) = Some (c', effects) /\
               states_calls effects = [Number k] /\
               pending c' = pending c ++ [fetchStates_awaiting (Number k)] /\
               country (formValues c') = v).
  { intros v k Hid Hne Hchange.
    rewrite step_CountryChange. unfold commit.
    pose proof (onCountryChange_country (formValues c) v) as Hc.
    rewrite Hid in Hc. simpl JS.truthy_opt in Hc.
    apply truthy_nonempty in Hne as Ht. rewrite Ht in Hc.
    set (fv' := dispatch_all (formValues c)
                  (fst (onCountryChange (formValues c) v))) in *.
    assert (Hdeps : deps_changed (formValues c) fv' (t (env c)) (t (env c))
                    = true).
    { unfold deps_changed. rewrite Hc.
      apply String.eqb_neq in Hchange. now rewrite Hchange. }
    assert (Hbody : effect_body fv' = [Number k])
      by (apply effect_body_some; [now rewrite Hc | assumption]).
    cbv zeta. rewrite Hdeps, Hbody.
    eexists; eexists. split; [reflexivity |].
    rewrite states_calls_app, states_calls_onCountryChange.
    repeat split. exact Hc. }
  split; [exact (Hone value cid) |].
  split; [| split].
  - intros Hcode Hsafe Hchange.
    destruct (Hone (country_value sc) (JS.toString (sc_id sc)))
      as (c' & effects & Hstep & Hcalls & _);
      [now apply countryId_of_country_value | apply toString_nonempty
      | assumption |].
    exists c', effects, (Number (JS.toString (sc_id sc))).
    repeat split; try assumption. now apply integer_value_toString.
  - intros Hno. apply no_id_part in Hno.
    rewrite step_CountryChange. unfold commit.
    pose proof (onCountryChange_country (formValues c) value) as Hc.
    rewrite Hno in Hc.
    set (fv' := dispatch_all (formValues c)
                  (fst (onCountryChange (formValues c) value))) in *.
    assert (Hbody : effect_body fv' = [])
      by (apply effect_body_none; now rewrite Hc).
    cbv zeta. rewrite Hbody.
    eexists; eexists. split; [reflexivity |].
    rewrite states_calls_app, states_calls_onCountryChange.
    destruct (deps_changed _ _ _ _); simpl; rewrite List.app_nil_r;
      repeat split; exact Hc.
  - intros Hno. apply effect_body_none.
    destruct Hno as [H | [H | H]]; rewrite H; reflexivity.
Qed.

Lemma country_change_triggers_one_fetch_witness :
  (exists c' effects k,
     step (fst (mount Sample.full_env)) (CountryChange "CA-38") =
       Some (c', effects) /\
     states_calls effects = [k] /\
     integer_value k = Some 38%N) /\
  (exists c' effects,
     step (fst (mount Sample.full_env)) (CountryChange "CA") =
       Some (c', effects) /\
     states_calls effects = [] /\
     pending c' = pending (fst (mount Sample.full_env)) /\
     country (formValues c') = "").
Proof.
  pose proof (country_change_triggers_one_fetch
                (fst (mount Sample.full_env)) "CA" "38"
                Sample.ca (initialValues Sample.full_env))
    as (_ & Hitem & Hnone & _).
  split.
  - apply Hitem.
    + reflexivity.
    + vm_compute. discriminate.
    + vm_compute. discriminate.
  - apply Hnone. right. left. reflexivity.
Defined.

(** ** What a transition does to the component *)

Lemma step_state (c : Component) (ev : Event) c' effects :
  step c ev = Some (c', effects) ->
  formValues c' = dispatch_all (formValues c) (handler_updates c ev) /\
  env c' = handler_env c ev /\
  pending c' =
    handler_pending c ev ++
    map fetchStates_awaiting
      (if deps_changed (formValues c) (formValues c') (t (env c)) (t (env c'))
       then effect_body (formValues c') else []).
Proof.
  destruct ev; unfold step, handler_updates, handler_pending, handler_env.
  - destruct (onCountryChange (formValues c) value) as [updates effs].
    intros H. unfold commit in H; cbv zeta in H; inversion H; subst.
    repeat split.
  - intros H. unfold commit in H; cbv zeta in H; inversion H; subst.
    repeat split.
  - intros H. unfold commit in H; cbv zeta in H; inversion H; subst.
    repeat split.
  - intros H. unfold commit in H; cbv zeta in H; inversion H; subst.
    repeat split.
  - intros H. unfold commit in H; cbv zeta in H; inversion H; subst.
    repeat split.
  - destruct (nth_error (pending c) i) as [[n | t1] |]; try discriminate.
    intros H. unfold commit in H; cbv zeta in H; inversion H; subst.
    repeat split.
  - destruct (nth_error (pending c) i) as [[n | t1] |]; try discriminate.
    intros H. unfold commit in H; cbv zeta in H; inversion H; subst.
    repeat split.
  - intros H. unfold commit in H; cbv zeta in H; inversion H; subst.
    repeat split.
Qed.

(** Only the country [Select] touches the country field. *)
Lemma step_country (c : Component) (ev : Event) c' effects :
  step c ev = Some (c', effects) ->
  country (formValues c') <> country (formValues c) ->
  exists value, ev = CountryChange value.
Proof.
  intros Hstep Hne. apply step_state in Hstep as (Hfv & _).
  rewrite Hfv in Hne.
  destruct ev; simpl in Hne; try (now elim Hne).
  - now exists value.
  - unfold fetchStates_resume in Hne.
    destruct (String.eqb _ _), (data r); now elim Hne.
Qed.

(** Who writes the states field: a reset stores the empty array, a
    resolved lookup its outcome, every other event nothing. *)
Lemma step_states (c : Component) (ev : Event) c' effects :
  step c ev = Some (c', effects) ->
  match ev with
  | CountryChange _ =>
      states (formValues c') =
      if JS.truthy (country (formValues c)) then Some []
      else states (formValues c)
  | StatesResolved _ r =>
      states (formValues c') =
      if fetch_failed r then None else data r
  | _ => states (formValues c') = states (formValues c)
  end.
Proof.
  intros Hstep. apply step_state in Hstep as (Hfv & _). rewrite Hfv.
  destruct ev; try reflexivity.
  - simpl. unfold onCountryChange, resetFormFieldsOnCountryChange.
    destruct (JS.truthy (country (formValues c)));
      destruct (JS.truthy_opt (countryId_of value)); reflexivity.
  - simpl. unfold fetchStates_resume, fetch_failed.
    destruct (String.eqb _ _), (data r); reflexivity.
Qed.

Lemma run_keeps_states_empty (evs : list Event) :
  forall c c' effects,
    states (formValues c) = Some [] ->
    forallb (fun ev => negb (is_resolution ev)) evs = true ->
    run c evs = Some (c', effects) ->
    states (formValues c') = Some [].
Proof.
  induction evs as [| ev evs IH]; intros c c' effects Hempty Hquiet Hrun.
  - simpl in Hrun. inversion Hrun; subst. exact Hempty.
  - simpl in Hquiet. apply andb_prop in Hquiet as [Hev Hevs].
    simpl in Hrun.
    destruct (step c ev) as [[c1 effs1] |] eqn:Hstep; [| discriminate].
    destruct (run c1 evs) as [[c2 effs2] |] eqn:Hrest; [| discriminate].
    inversion Hrun; subst.
    apply (IH c1 c' effs2); try assumption.
    pose proof (step_states _ _ _ _ Hstep) as Hs.
    destruct ev; try (rewrite Hs; exact Hempty); try discriminate.
    rewrite Hs. destruct (JS.truthy _); [reflexivity | exact Hempty].
Qed.

(** ** States while a lookup is in flight *)

(** C5, as stated, fails: lookups are not cancelled, so the lookup of a
    country selected earlier can resolve, and fill states, while the
    lookup of the current country is still in flight. *)
Lemma states_filled_while_lookup_in_flight :
  exists c' effects,
    run (fst (mount Sample.full_env))
      [CountryChange "CA-38"; StatesResolved 0 (Sample.ok [Sample.texas])] =
      Some (c', effects) /\
    pending c' = [fetchStates_awaiting (Number "38")] /\
    fetch_in_flight c' = true /\
    country (formValues c') = "CA-38" /\
    states (formValues c') = Some [Sample.texas] /\
    states (formValues c') <> Some [].
Proof.
  eexists; eexists. split; [vm_compute; reflexivity |].
  repeat split. discriminate.
Qed.

(** C5, amended.  States is the empty array at initialization and after
    every country selection made while the country value is non-empty,
    and it stays the empty array until some pending lookup resolves;
    it becomes null only when a lookup resolves without a success
    carrying data. *)
Theorem states_empty_until_a_lookup_resolves
    (e : Env) (c : Component) (value : string) (evs : list Event)
    (ev : Event) :
  states (formValues (fst (mount e))) = Some [] /\
  (country (formValues c) <> "" ->
   exists c' effects,
     step c (CountryChange value) = Some (c', effects) /\
     states (formValues c') = Some []) /\
  (states (formValues c) = Some [] ->
   forallb (fun ev' => negb (is_resolution ev')) evs = true ->
   forall c' effects,
     run c evs = Some (c', effects) ->
     states (formValues c') = Some []) /\
  (forall c' effects,
     step c ev = Some (c', effects) ->
     states (formValues c) <> None ->
     states (formValues c') = None ->
     exists i r,
       ev = StatesResolved i r /\
       (states_status r <> "success" \/ data r = None)).
Proof.
  split; [reflexivity |]. split; [| split].
  - intros Hne.
    destruct (step c (CountryChange value)) as [[c' effects] |] eqn:Hstep.
    + exists c', effects. split; [reflexivity |].
      pose proof (step_states _ _ _ _ Hstep) as Hs. simpl in Hs.
      apply truthy_nonempty in Hne. now rewrite Hs, Hne.
    + rewrite step_CountryChange in Hstep. discriminate.
  - intros Hempty Hquiet c' effects Hrun.
    exact (run_keeps_states_empty evs c c' effects Hempty Hquiet Hrun).
  - intros c' effects Hstep Hsome Hnull.
    pose proof (step_states _ _ _ _ Hstep) as Hs.
    destruct ev; try (rewrite Hs in Hnull; contradiction).
    + rewrite Hs in Hnull.
      destruct (JS.truthy _); [discriminate | contradiction].
    + exists i, r. split; [reflexivity |].
      rewrite Hs in Hnull. unfold fetch_failed in Hnull.
      destruct (String.eqb_spec (states_status r) "success");
        [right | left; assumption].
      destruct (data r); [discriminate | reflexivity].
Qed.

Lemma states_empty_until_a_lookup_resolves_witness :
  (exists c' effects,
     step (fst (mount Sample.full_env)) (CountryChange "CA-38") =
       Some (c', effects) /\
     states (formValues c') = Some []) /\
  (forall c' effects,
     run (fst (mount Sample.full_env))
       [CityChange "Dallas"; Submit []; CountryChange "CA-38"] =
       Some (c', effects) ->
     states (formValues c') = Some []).
Proof.
  pose proof (states_empty_until_a_lookup_resolves
                Sample.full_env (fst (mount Sample.full_env)) "CA-38"
                [CityChange "Dallas"; Submit []; CountryChange "CA-38"]
                (CityChange "Dallas")) as (_ & Hreset & Hquiet & _).
  split.
  - apply Hreset. vm_compute. discriminate.
  - apply Hquiet; reflexivity.
Defined.

(** ** No retry *)

Lemma states_calls_handler (c : Component) (ev : Event) :
  states_calls (handler_effects c ev) = [].
Proof.
  destruct ev; simpl; try reflexivity.
  - apply states_calls_onCountryChange.
  - destruct (nth_error (pending c) i) as [[n | t1] |]; try reflexivity.
    unfold onSubmit_resume. destruct (String.eqb _ _); reflexivity.
Qed.

Lemma submit_calls_handler (c : Component) (ev : Event) :
  submit_calls (handler_effects c ev) =
  match ev with
  | Submit formData => [(formData, onSubmit_args (env c))]
  | _ => []
  end.
Proof.
  destruct ev; simpl; try reflexivity.
  - rewrite onCountryChange_effects.
    destruct (JS.truthy _); reflexivity.
  - destruct (nth_error (pending c) i) as [[n | t1] |]; try reflexivity.
    unfold onSubmit_resume. destruct (String.eqb _ _); reflexivity.
Qed.

(** A lookup starts only in a render that sees a new country value or a
    new translator. *)
Lemma step_states_calls (c : Component) (ev : Event) c' effects :
  step c ev = Some (c', effects) ->
  states_calls effects <> [] ->
  (exists value,
      ev = CountryChange value /\
      country (formValues c') <> country (formValues c)) \/
  (exists e',
      ev = Rerender e' /\ t_ref (t e') <> t_ref (t (env c))).
Proof.
  intros Hstep Hcalls.
  pose proof (step_effects _ _ _ _ Hstep) as Heff.
  pose proof (step_state _ _ _ _ Hstep) as (_ & Henv & _).
  rewrite Heff, states_calls_app, states_calls_handler, states_calls_map
    in Hcalls.
  simpl in Hcalls.
  destruct (deps_changed _ _ _ _) eqn:Hdeps; [| now elim Hcalls].
  unfold deps_changed in Hdeps.
  apply negb_true_iff, andb_false_iff in Hdeps as [Hc | Ht].
  - apply String.eqb_neq in Hc. left.
    destruct (step_country _ _ _ _ Hstep) as (value & ->); [congruence |].
    exists value. split; [reflexivity | congruence].
  - apply Nat.eqb_neq in Ht. right.
    rewrite Henv in Ht.
    destruct ev; simpl in Ht; try (now elim Ht).
    exists e. split; [reflexivity | congruence].
Qed.

Lemma step_submit_calls (c : Component) (ev : Event) c' effects :
  step c ev = Some (c', effects) ->
  submit_calls effects <> [] ->
  exists formData,
    ev = Submit formData /\
    submit_calls effects = [(formData, onSubmit_args (env c))].
Proof.
  intros Hstep Hcalls.
  pose proof (step_effects _ _ _ _ Hstep) as Heff.
  rewrite Heff, submit_calls_app, submit_calls_handler, submit_calls_map,
    List.app_nil_r in Hcalls |- *.
  destruct ev; try (now elim Hcalls).
  exists formData. split; reflexivity.
Qed.

Lemma run_without_calls (evs : list Event) :
  forall c c' effects,
    forallb (fun ev => negb (may_call ev)) evs = true ->
    run c evs = Some (c', effects) ->
    states_calls effects = [] /\ submit_calls effects = [].
Proof.
  induction evs as [| ev evs IH]; intros c c' effects Hquiet Hrun.
  - simpl in Hrun. inversion Hrun; subst. split; reflexivity.
  - simpl in Hquiet. apply andb_prop in Hquiet as [Hev Hevs].
    simpl in Hrun.
    destruct (step c ev) as [[c1 effs1] |] eqn:Hstep; [| discriminate].
    destruct (run c1 evs) as [[c2 effs2] |] eqn:Hrest; [| discriminate].
    inversion Hrun; subst.
    destruct (IH c1 c' effs2 Hevs Hrest) as [Hs Hsub].
    rewrite states_calls_app, submit_calls_app, Hs, Hsub, !List.app_nil_r.
    split.
    + destruct (states_calls effs1) as [| k ks] eqn:Hk; [reflexivity |].
      destruct (step_states_calls _ _ _ _ Hstep) as [(v & -> & _) | (e' & -> & _)];
        [rewrite Hk; discriminate | discriminate | discriminate].
    + destruct (submit_calls effs1) as [| k ks] eqn:Hk; [reflexivity |].
      destruct (step_submit_calls _ _ _ _ Hstep) as (fd & -> & _);
        [rewrite Hk; discriminate | discriminate].
Qed.

(** C7, as stated, fails in its parenthesis: the effect also depends on
    the translator [t], so a render with a new [t] repeats the lookup of
    a country whose lookup failed, without any country change. *)
Lemma lookup_repeated_without_country_change :
  exists c1 c2,
    step (fst (mount Sample.full_env)) (StatesResolved 0 Sample.failure) =
      Some (c1, []) /\
    states (formValues c1) = None /\
    step c1 (Rerender Sample.reloaded_env) =
      Some (c2, [getShippingStates (Number "226")]) /\
    country (formValues c2) = country (formValues c1).
Proof.
  eexists; eexists. split; [vm_compute; reflexivity |].
  split; [reflexivity |]. split; [vm_compute; reflexivity | reflexivity].
Qed.

(** C7, amended.  The resolution of a lookup, failed or not, starts no
    call, and the resolution of a submission starts none either (it
    shows at most a toast): nothing is retried.  A new
    [getShippingStates] call starts only in a render that sees a changed
    country value or a changed translator (the two dependencies of the
    effect), and [submitShippingInfo] is invoked only by a submission of
    the form. *)
Theorem no_retry_after_failure
    (c : Component) (i : nat) (n : JsNumber) (t0 : Translator)
    (r : StatesResult) (r' : SubmitResult) (ev : Event)
    (evs : list Event) :
  (nth_error (pending c) i = Some (fetchStates_awaiting n) ->
   exists c',
     step c (StatesResolved i r) = Some (c', []) /\
     pending c' = remove_nth i (pending c) /\
     country (formValues c') = country (formValues c)) /\
  (nth_error (pending c) i = Some (onSubmit_awaiting t0) ->
   exists c' effects,
     step c (SubmitResolved i r') = Some (c', effects) /\
     states_calls effects = [] /\
     submit_calls effects = [] /\
     pending c' = remove_nth i (pending c) /\
     formValues c' = formValues c) /\
  (forall c' effects,
     step c ev = Some (c', effects) ->
     states_calls effects <> [] ->
     (exists value,
         ev = CountryChange value /\
         country (formValues c') <> country (formValues c)) \/
     (exists e',
         ev = Rerender e' /\ t_ref (t e') <> t_ref (t (env c)))) /\
  (forall c' effects,
     step c ev = Some (c', effects) ->
     submit_calls effects <> [] ->
     exists formData,
       ev = Submit formData /\
       submit_calls effects = [(formData, onSubmit_args (env c))]) /\
  (forallb (fun ev' => negb (may_call ev')) evs = true ->
   forall c' effects,
     run c evs = Some (c', effects) ->
     states_calls effects = [] /\ submit_calls effects = []).
Proof.
  split; [| split; [| split; [| split]]].
  - intros Hp. unfold step. rewrite Hp.
    assert (Hc : country (dispatch_all (formValues c) [fetchStates_resume r])
                 = country (formValues c)).
    { unfold fetchStates_resume.
      destruct (String.eqb _ _), (data r); reflexivity. }
    rewrite (commit_quiet _ _ _ _ Hc).
    eexists. split; [reflexivity |]. split; [reflexivity | exact Hc].
  - intros Hp. rewrite (step_SubmitResolved _ _ _ _ Hp).
    eexists; eexists. split; [reflexivity |].
    unfold onSubmit_resume. destruct (String.eqb _ _); repeat split.
  - intros c' effects. apply step_states_calls.
  - intros c' effects. apply step_submit_calls.
  - intros Hquiet c' effects. now apply run_without_calls.
Qed.

Lemma no_retry_after_failure_witness :
  (exists c',
     step (fst (mount Sample.full_env)) (StatesResolved 0 Sample.failure) =
       Some (c', []) /\
     pending c' = [] /\
     country (formValues c') = "US-226") /\
  (forall c' effects,
     run (fst (mount Sample.full_env))
       [StatesResolved 0 Sample.failure; CityChange "Dallas";
        StateChange "Texas"; PostcodeChange "75001"] = Some (c', effects) ->
     states_calls effects = [] /\ submit_calls effects = []).
Proof.
  pose proof (no_retry_after_failure
                (fst (mount Sample.full_env)) 0 (Number "226")
                Sample.english Sample.failure {| submit_status := "error" |}
                (CityChange "Dallas")
                [StatesResolved 0 Sample.failure; CityChange "Dallas";
                 StateChange "Texas"; PostcodeChange "75001"])
    as (Hfetch & _ & _ & _ & Hrun).
  split.
  - exact (Hfetch eq_refl).
  - apply Hrun. reflexivity.
Defined.

(** ** Initial values *)

Lemma countryCode_matches_spec (x : Consignment) (a : ShippingCountry) :
  countryCode_matches (Some x) a = true <->
  countryCode a = addr_countryCode (address x).
Proof. apply String.eqb_eq. Qed.

Lemma or_empty_field (o : option string) :
  JS.or_empty o = field_or_empty o.
Proof. destruct o as [[| a s] |]; reflexivity. Qed.

(** C10.  The pre-filled consignment is the first consignment with a
    selected shipping option, or else the first consignment; the
    initial country is [<countryCode>-<id>] of the first shipping
    country whose code is that of the consignment's address, and the
    empty string when no country matches or there is no consignment;
    state, city and postcode start from the consignment's address
    fields, or empty; states starts as the empty array. *)
Theorem initial_form_values (e : Env) :
  (forall cs x,
      shippingConsignments (checkout e) = Some cs ->
      first_such (fun k => selectedShippingOption k <> None) cs x ->
      shippingConsignment (checkout e) = Some x) /\
  (forall cs,
      shippingConsignments (checkout e) = Some cs ->
      (forall k, In k cs -> selectedShippingOption k = None) ->
      shippingConsignment (checkout e) = hd_error cs) /\
  (shippingConsignments (checkout e) = None ->
   shippingConsignment (checkout e) = None) /\
  (forall x k,
      shippingConsignment (checkout e) = Some x ->
      first_such (fun k' => countryCode k' = addr_countryCode (address x))
        (shippingCountries e) k ->
      country (formValues (fst (mount e))) =
        (countryCode k ++ "-" ++ JS.toString (sc_id k))%string) /\
  (forall x,
      shippingConsignment (checkout e) = Some x ->
      (forall k, In k (shippingCountries e) ->
                 countryCode k <> addr_countryCode (address x)) ->
      country (formValues (fst (mount e))) = "") /\
  (forall x,
      shippingConsignment (checkout e) = Some x ->
      state (formValues (fst (mount e))) =
        field_or_empty (stateOrProvince (address x)) /\
      city (formValues (fst (mount e))) =
        field_or_empty (addr_city (address x)) /\
      postcode (formValues (fst (mount e))) =
        field_or_empty (postalCode (address x))) /\
  (shippingConsignment (checkout e) = None ->
   country (formValues (fst (mount e))) = "" /\
   state (formValues (fst (mount e))) = "" /\
   city (formValues (fst (mount e))) = "" /\
   postcode (formValues (fst (mount e))) = "") /\
  states (formValues (fst (mount e))) = Some [].
Proof.
  repeat match goal with |- _ /\ _ => split end.
  - intros cs x Hcs Hfirst. unfold shippingConsignment. rewrite Hcs.
    rewrite (find_first_such _ _ _ _ has_selectedShippingOption_spec Hfirst).
    reflexivity.
  - intros cs Hcs Hnone. unfold shippingConsignment. rewrite Hcs.
    rewrite (find_no_such _ _ _ has_selectedShippingOption_spec).
    + destruct cs; reflexivity.
    + intros k Hk Hsel. apply Hsel, Hnone, Hk.
  - intros Hcs. unfold shippingConsignment. now rewrite Hcs.
  - intros x k Hsc Hfirst.
    unfold mount, initialValues, selectedShippingCountry.
    cbn [fst formValues country]. rewrite Hsc.
    rewrite (find_first_such _ _ _ k (countryCode_matches_spec x) Hfirst).
    reflexivity.
  - intros x Hsc Hnone.
    unfold mount, initialValues, selectedShippingCountry.
    cbn [fst formValues country]. rewrite Hsc.
    rewrite (find_no_such _ _ _ (countryCode_matches_spec x) Hnone).
    reflexivity.
  - intros x Hsc. simpl. unfold address_field. rewrite Hsc.
    rewrite !or_empty_field. repeat split.
  - intros Hsc. simpl. unfold selectedShippingCountry, address_field.
    rewrite Hsc. unfold countryCode_matches.
    rewrite (find_no_such (fun _ => false) (fun _ => False)).
    + repeat split.
    + intros a. split; [discriminate | contradiction].
    + intros a _ H. exact H.
  - reflexivity.
Qed.

Lemma initial_form_values_witness :
  shippingConsignment (checkout Sample.full_env) =
    Some Sample.chosen_consignment /\
  country (formValues (fst (mount Sample.full_env))) = "US-226" /\
  city (formValues (fst (mount Sample.full_env))) = "Austin" /\
  country (formValues (fst (mount Sample.bare_env))) = "".
Proof.
  pose proof (initial_form_values Sample.full_env)
    as (Hsel & _ & _ & Hcountry & _ & Hfields & _).
  pose proof (initial_form_values Sample.bare_env)
    as (_ & _ & Habsent & _ & _ & _ & Hempty & _).
  assert (Hsc : shippingConsignment (checkout Sample.full_env) =
                Some Sample.chosen_consignment).
  { apply (Hsel _ _ eq_refl).
    apply first_later; [intros H; now apply H |].
    apply first_here. discriminate. }
  split; [exact Hsc |]. split; [| split].
  - apply (Hcountry _ Sample.us Hsc).
    apply first_later; [discriminate | apply first_here; reflexivity].
  - apply (Hfields _ Hsc).
  - apply Hempty, Habsent. reflexivity.
Defined.

(** ** Further properties of the component *)

(** *** The lookup started by the first render *)

Lemma initial_country_of_match (e : Env) (k : ShippingCountry) :
  selectedShippingCountry e = Some k ->
  country (initialValues e) = country_value k.
Proof. intros H. unfold initialValues. simpl. now rewrite H. Qed.

Lemma initial_country_no_match (e : Env) :
  selectedShippingCountry e = None -> country (initialValues e) = "".
Proof. intros H. unfold initialValues. simpl. now rewrite H. Qed.

Lemma selectedShippingCountry_first (e : Env) (x : Consignment)
    (k : ShippingCountry) :
  shippingConsignment (checkout e) = Some x ->
  first_such (fun k' => countryCode k' = addr_countryCode (address x))
    (shippingCountries e) k ->
  selectedShippingCountry e = Some k.
Proof.
  intros Hsc Hfirst. unfold selectedShippingCountry. rewrite Hsc.
  exact (find_first_such _ _ _ k (countryCode_matches_spec x) Hfirst).
Qed.

Lemma selectedShippingCountry_absent (e : Env) :
  shippingConsignment (checkout e) = None ->
  selectedShippingCountry e = None.
Proof.
  intros Hsc. unfold selectedShippingCountry. rewrite Hsc.
  apply (find_no_such _ (fun _ => False)).
  - intros a. split; [discriminate | contradiction].
  - intros a _ H. exact H.
Qed.

Lemma has_id_part_country_value (k : ShippingCountry) :
  hyphen_free (countryCode k) = true ->
  has_id_part (country_value k) = true.
Proof.
  intros Hcode. unfold has_id_part.
  rewrite (countryId_of_country_value _ Hcode). simpl.
  apply truthy_nonempty, toString_nonempty.
Qed.

(** X1.  The first render starts the lookup of the pre-filled country:
    when the consignment's country code is that of a shipping country
    (with a hyphen-free code and a safe id), mounting starts exactly one
    [getShippingStates] call, on that country's id, and nothing else;
    without a consignment it starts nothing. *)
Theorem mount_starts_lookup_of_prefilled_country (e : Env) :
  (forall x k,
      shippingConsignment (checkout e) = Some x ->
      first_such (fun k' => countryCode k' = addr_countryCode (address x))
        (shippingCountries e) k ->
      hyphen_free (countryCode k) = true ->
      (sc_id k <= JS.MAX_SAFE_INTEGER)%N ->
      exists n,
        snd (mount e) = [getShippingStates n] /\
        pending (fst (mount e)) = [fetchStates_awaiting n] /\
        integer_value n = Some (sc_id k)) /\
  (shippingConsignment (checkout e) = None ->
   snd (mount e) = [] /\ pending (fst (mount e)) = []).
Proof.
  split.
  - intros x k Hsc Hfirst Hcode Hsafe.
    pose proof (selectedShippingCountry_first e x k Hsc Hfirst) as Hsel.
    pose proof (initial_country_of_match e k Hsel) as Hc.
    assert (Hbody : effect_body (initialValues e) =
                    [Number (JS.toString (sc_id k))]).
    { apply effect_body_some.
      - rewrite Hc. now apply countryId_of_country_value.
      - apply toString_nonempty. }
    exists (Number (JS.toString (sc_id k))).
    unfold mount. cbv zeta. rewrite Hbody.
    repeat split. now apply integer_value_toString.
  - intros Hsc.
    pose proof (initial_country_no_match e
                  (selectedShippingCountry_absent e Hsc)) as Hc.
    assert (Hbody : effect_body (initialValues e) = [])
      by (apply effect_body_none; rewrite Hc; reflexivity).
    unfold mount. cbv zeta. rewrite Hbody. split; reflexivity.
Qed.

Lemma mount_starts_lookup_of_prefilled_country_witness :
  (exists n,
     snd (mount Sample.full_env) = [getShippingStates n] /\
     pending (fst (mount Sample.full_env)) = [fetchStates_awaiting n] /\
     integer_value n = Some 226%N) /\
  snd (mount Sample.bare_env) = [] /\
  pending (fst (mount Sample.bare_env)) = [].
Proof.
  split.
  - apply (proj1 (mount_starts_lookup_of_prefilled_country Sample.full_env)
             Sample.chosen_consignment Sample.us).
    + reflexivity.
    + apply first_later; [discriminate | apply first_here; reflexivity].
    + reflexivity.
    + vm_compute. discriminate.
  - apply (proj2 (mount_starts_lookup_of_prefilled_country Sample.bare_env)).
    reflexivity.
Defined.

(** *** The country value along a run *)

Lemma step_keeps_id_part (c : Component) (ev : Event) c' effects :
  step c ev = Some (c', effects) ->
  country (formValues c) = "" \/ has_id_part (country (formValues c)) = true ->
  country (formValues c') = "" \/
  has_id_part (country (formValues c')) = true.
Proof.
  intros Hstep Hinv.
  destruct (string_dec (country (formValues c')) (country (formValues c)))
    as [Heq | Hne]; [now rewrite Heq |].
  destruct (step_country _ _ _ _ Hstep Hne) as (value & ->).
  apply step_state in Hstep as (Hfv & _). rewrite Hfv.
  simpl handler_updates. rewrite onCountryChange_country.
  unfold has_id_part.
  destruct (JS.truthy_opt (countryId_of value)) eqn:Hid; [right | left];
    [exact Hid | reflexivity].
Qed.

Lemma run_keeps_id_part (evs : list Event) :
  forall c c' effects,
    run c evs = Some (c', effects) ->
    country (formValues c) = "" \/
    has_id_part (country (formValues c)) = true ->
    country (formValues c') = "" \/
    has_id_part (country (formValues c')) = true.
Proof.
  induction evs as [| ev evs IH]; intros c c' effects Hrun Hinv.
  - simpl in Hrun. inversion Hrun; subst. exact Hinv.
  - simpl in Hrun.
    destruct (step c ev) as [[c1 effs1] |] eqn:Hstep; [| discriminate].
    destruct (run c1 evs) as [[c2 effs2] |] eqn:Hrest; [| discriminate].
    inversion Hrun; subst.
    apply (IH c1 c' effs2 Hrest).
    exact (step_keeps_id_part _ _ _ _ Hstep Hinv).
Qed.

(** X2.  When no shipping country's code contains a hyphen, the country
    value of the form is, after any sequence of events, either empty or
    a value with a non-empty id part; so the effect starts a lookup for
    every non-empty country value the form ever holds, and none for the
    empty one. *)
Theorem country_value_always_has_id (e : Env) (evs : list Event)
    (c' : Component) (effects : list Effect) :
  (forall k, In k (shippingCountries e) -> hyphen_free (countryCode k) = true) ->
  run (fst (mount e)) evs = Some (c', effects) ->
  (country (formValues c') = "" \/
   has_id_part (country (formValues c')) = true) /\
  (country (formValues c') = "" <-> effect_body (formValues c') = []).
Proof.
  intros Hcodes Hrun.
  assert (Hinit : country (initialValues e) = "" \/
                  has_id_part (country (initialValues e)) = true).
  { destruct (selectedShippingCountry e) as [k |] eqn:Hsel.
    - right. rewrite (initial_country_of_match e k Hsel).
      apply has_id_part_country_value, Hcodes.
      unfold selectedShippingCountry, JS.find in Hsel.
      now apply find_some in Hsel.
    - left. now apply initial_country_no_match. }
  pose proof (run_keeps_id_part evs _ _ _ Hrun Hinit) as Hinv.
  split; [exact Hinv |].
  split.
  - intros Hc. apply effect_body_none. now rewrite Hc.
  - intros Hbody. destruct Hinv as [Hc | Hid]; [exact Hc |].
    unfold has_id_part in Hid.
    destruct (countryId_of (country (formValues c'))) as [cid |] eqn:Hcid;
      [| discriminate].
    simpl in Hid. apply truthy_nonempty in Hid.
    rewrite (effect_body_some _ _ Hcid Hid) in Hbody. discriminate.
Qed.

Lemma country_value_always_has_id_witness :
  exists c' effects,
    run (fst (mount Sample.full_env))
      [CountryChange "CA-38"; CountryChange "CA"; CityChange "Ottawa"] =
      Some (c', effects) /\
    (country (formValues c') = "" \/
     has_id_part (country (formValues c')) = true) /\
    (country (formValues c') = "" <-> effect_body (formValues c') = []).
Proof.
  destruct (run (fst (mount Sample.full_env))
              [CountryChange "CA-38"; CountryChange "CA"; CityChange "Ottawa"])
    as [[c' effects] |] eqn:Hrun.
  - exists c', effects. split; [reflexivity |].
    apply (country_value_always_has_id Sample.full_env
             [CountryChange "CA-38"; CountryChange "CA"; CityChange "Ottawa"]
             c' effects).
    + intros k [<- | [<- | []]]; reflexivity.
    + exact Hrun.
  - vm_compute in Hrun. discriminate.
Defined.

(** *** Editing state and postcode *)

(** X3.  Editing the state (through the select or the text input) or
    the postcode changes that field only, keeps the kind of the state
    field, starts no call and leaves the pending calls alone. *)
Theorem field_edits_are_local (c : Component) (value : string) :
  (exists c',
     step c (StateChange value) = Some (c', []) /\
     formValues c' =
       {| country := country (formValues c); states := states (formValues c);
          state := value; city := city (formValues c);
          postcode := postcode (formValues c) |} /\
     pending c' = pending c /\
     render_state_field (formValues c') =
       match render_state_field (formValues c) with
       | StateSelect d items _ => StateSelect d items value
       | StateInput _ => StateInput value
       end) /\
  (exists c',
     step c (PostcodeChange value) = Some (c', []) /\
     formValues c' =
       {| country := country (formValues c); states := states (formValues c);
          state := state (formValues c); city := city (formValues c);
          postcode := value |} /\
     pending c' = pending c /\
     render_state_field (formValues c') = render_state_field (formValues c)).
Proof.
  split; eexists; unfold step; rewrite commit_quiet by reflexivity;
    (split; [reflexivity |]); (split; [reflexivity |]);
    (split; [reflexivity |]);
    unfold render_state_field; simpl;
    destruct (states (formValues c)); reflexivity.
Qed.

(** *** Lookups that resolve one after the other *)

Lemma step_StatesResolved (c : Component) (i : nat) (n : JsNumber)
    (r : StatesResult) :
  nth_error (pending c) i = Some (fetchStates_awaiting n) ->
  step c (StatesResolved i r) =
  Some ({| env := env c;
           formValues :=
             {| country := country (formValues c);
                states := if fetch_failed r then None else data r;
                state := state (formValues c);
                city := city (formValues c);
                postcode := postcode (formValues c) |};
           pending := remove_nth i (pending c) |}, []).
Proof.
  intros Hp. unfold step. rewrite Hp.
  assert (Hfv : dispatch_all (formValues c) [fetchStates_resume r] =
                {| country := country (formValues c);
                   states := if fetch_failed r then None else data r;
                   state := state (formValues c);
                   city := city (formValues c);
                   postcode := postcode (formValues c) |}).
  { unfold fetchStates_resume, fetch_failed.
    destruct (String.eqb _ _), (data r); reflexivity. }
  rewrite commit_quiet by (rewrite Hfv; reflexivity).
  now rewrite Hfv.
Qed.

(** X4.  A resolving lookup stores its own outcome whatever country it
    was started for and whatever country is selected now, and touches
    no other field; when two pending lookups resolve one after the
    other, states holds the outcome of the one that resolved last. *)
Theorem last_resolved_lookup_wins
    (c : Component) (i j : nat) (n1 n2 : JsNumber) (r1 r2 : StatesResult) :
  nth_error (pending c) i = Some (fetchStates_awaiting n1) ->
  nth_error (remove_nth i (pending c)) j = Some (fetchStates_awaiting n2) ->
  exists c',
    run c [StatesResolved i r1; StatesResolved j r2] = Some (c', []) /\
    states (formValues c') = (if fetch_failed r2 then None else data r2) /\
    country (formValues c') = country (formValues c) /\
    state (formValues c') = state (formValues c) /\
    city (formValues c') = city (formValues c) /\
    postcode (formValues c') = postcode (formValues c) /\
    pending c' = remove_nth j (remove_nth i (pending c)).
Proof.
  intros Hi Hj. cbn [run].
  rewrite (step_StatesResolved _ _ _ r1 Hi).
  rewrite (step_StatesResolved _ _ n2 r2) by exact Hj.
  eexists. split; [reflexivity |]. repeat split.
Qed.

Lemma last_resolved_lookup_wins_witness :
  exists c0 c',
    run (fst (mount Sample.full_env)) [CountryChange "CA-38"] =
      Some (c0, [hideShippingOptions; getShippingStates (Number "38")]) /\
    run c0 [StatesResolved 1 (Sample.ok []); StatesResolved 0
              (Sample.ok [Sample.texas])] = Some (c', []) /\
    country (formValues c') = "CA-38" /\
    states (formValues c') = Some [Sample.texas].
Proof.
  eexists. 
  destruct (last_resolved_lookup_wins
              {| env := Sample.full_env;
                 formValues :=
                   {| country := "CA-38"; states := Some []; state := "";
                      city := ""; postcode := "" |};
                 pending := [fetchStates_awaiting (Number "226");
                             fetchStates_awaiting (Number "38")] |}
              1 0 (Number "38") (Number "226")
              (Sample.ok []) (Sample.ok [Sample.texas]) eq_refl eq_refl)
    as (c' & Hrun & Hstates & Hcountry & _).
  exists c'. split; [reflexivity |]. split; [exact Hrun |].
  split; [exact Hcountry | exact Hstates].
Defined.

(** *** The id part of a country value *)

Lemma split_nonempty (sep : ascii) (s : string) : JS.split sep s <> [].
Proof.
  destruct s as [| a s]; simpl; [discriminate |].
  destruct (Ascii.eqb a sep); [discriminate |].
  destruct (JS.split sep s); discriminate.
Qed.

Lemma countryId_of_None (v : string) :
  countryId_of v = None <-> hyphen_free v = true.
Proof.
  unfold countryId_of. split.
  - induction v as [| a v IH]; simpl; [reflexivity |].
    destruct (Ascii.eqb a "-") eqn:Ha; simpl.
    + pose proof (split_nonempty "-" v) as Hne.
      destruct (JS.split "-" v); [contradiction | discriminate].
    + pose proof (split_nonempty "-" v) as Hne.
      destruct (JS.split "-" v) as [| seg segs]; [contradiction |].
      exact IH.
  - intros H. now rewrite (split_hyphen_free _ H).
Qed.

Lemma countryId_of_segments (a b rest : string) :
  hyphen_free a = true -> hyphen_free b = true ->
  countryId_of (a ++ String "-" b) = Some b /\
  countryId_of (a ++ String "-" (b ++ String "-" rest)) = Some b.
Proof.
  intros Ha Hb. unfold countryId_of.
  rewrite !(split_prefix a _ Ha), (split_prefix b _ Hb),
    (split_hyphen_free b Hb).
  split; reflexivity.
Qed.

(** A selection that changes the country to a value with an id part
    starts the lookup of that id part. *)
Lemma step_CountryChange_lookup (c : Component) (value cid : string) :
  countryId_of value = Some cid -> cid <> "" ->
  country (formValues c) <> value ->
  exists c' effects,
    step c (CountryChange value) = Some (c', effects) /\
    states_calls effects = [Number cid] /\
    country (formValues c') = value.
Proof.
  intros Hid Hne Hchange.
  rewrite step_CountryChange. unfold commit.
  pose proof (onCountryChange_country (formValues c) value) as Hc.
  rewrite Hid in Hc. simpl JS.truthy_opt in Hc.
  apply truthy_nonempty in Hne as Ht. rewrite Ht in Hc.
  set (fv' := dispatch_all (formValues c)
                (fst (onCountryChange (formValues c) value))) in *.
  assert (Hdeps : deps_changed (formValues c) fv' (t (env c)) (t (env c))
                  = true).
  { unfold deps_changed. rewrite Hc.
    apply String.eqb_neq in Hchange. now rewrite Hchange. }
  assert (Hbody : effect_body fv' = [Number cid])
    by (apply effect_body_some; [now rewrite Hc | assumption]).
  cbv zeta. rewrite Hdeps, Hbody.
  eexists; eexists. split; [reflexivity |].
  rewrite states_calls_app, states_calls_onCountryChange.
  split; [reflexivity | exact Hc].
Qed.

(** X5.  The id part of a country value is the text between its first
    and its second hyphen: absent exactly when the value has no hyphen,
    the whole suffix when there is one hyphen, and the middle segment,
    not the suffix, when there are more; so for a country whose code
    contains a hyphen the lookup is started on a part of the code. *)
Theorem countryId_is_second_segment (a b rest v : string) (c : Component) :
  (countryId_of v = None <-> hyphen_free v = true) /\
  (hyphen_free a = true -> hyphen_free b = true ->
   countryId_of (a ++ String "-" b) = Some b /\
   countryId_of (a ++ String "-" (b ++ String "-" rest)) = Some b) /\
  (hyphen_free a = true -> hyphen_free b = true -> b <> "" ->
   country (formValues c) <> (a ++ String "-" (b ++ String "-" rest))%string ->
   exists c' effects,
     step c (CountryChange (a ++ String "-" (b ++ String "-" rest))) =
       Some (c', effects) /\
     states_calls effects = [Number b]).
Proof.
  split; [apply countryId_of_None |]. split.
  - apply countryId_of_segments.
  - intros Ha Hb Hne Hchange.
    destruct (countryId_of_segments a b rest Ha Hb) as [_ Hid].
    destruct (step_CountryChange_lookup c _ b Hid Hne Hchange)
      as (c' & effects & Hstep & Hcalls & _).
    now exists c', effects.
Qed.

Lemma countryId_is_second_segment_witness :
  country_value Sample.hyphenated = "X-Y-5" /\
  exists c' effects,
    step (fst (mount Sample.full_env))
      (CountryChange (country_value Sample.hyphenated)) = Some (c', effects) /\
    states_calls effects = [Number "Y"].
Proof.
  split; [reflexivity |].
  apply (proj2 (proj2 (countryId_is_second_segment "X" "Y" "5" ""
                         (fst (mount Sample.full_env))))).
  - reflexivity.
  - reflexivity.
  - discriminate.
  - vm_compute. discriminate.
Defined.

(** *** Renders by the parent *)

(** X6.  A render by the parent with the same translator starts no
    lookup and keeps the form values (they are not initialised again
    from the new props); a submission made after it passes the
    arguments built from the new props. *)
Theorem rerender_keeps_form (c : Component) (e' : Env) (formData : FormData) :
  t_ref (t e') = t_ref (t (env c)) ->
  exists c',
    run c [Rerender e'; Submit formData] =
      Some (c', [submitShippingInfo formData (onSubmit_args e')]) /\
    formValues c' = formValues c /\
    pending c' = pending c ++ [onSubmit_awaiting (t e')].
Proof.
  intros Ht. cbn [run]. unfold step at 1. unfold commit. cbv zeta.
  assert (Hdeps : deps_changed (formValues c)
                    (dispatch_all (formValues c) []) (t (env c)) (t e')
                  = false).
  { unfold deps_changed. simpl.
    rewrite String.eqb_refl, Ht, Nat.eqb_refl. reflexivity. }
  rewrite Hdeps. rewrite step_Submit.
  eexists. split; [reflexivity |]. simpl.
  rewrite List.app_nil_r. split; reflexivity.
Qed.

Lemma rerender_keeps_form_witness :
  exists c',
    run (fst (mount Sample.full_env))
      [Rerender {| checkout := Sample.bare_checkout;
                   shippingCountries := [];
                   isVisible := false; t := Sample.english |};
       Submit []] =
      Some (c', [submitShippingInfo []
                   {| checkoutId := "chk-2"; lineItems := [];
                      shippingId := "" |}]) /\
    formValues c' = formValues (fst (mount Sample.full_env)) /\
    pending c' =
      pending (fst (mount Sample.full_env)) ++
      [onSubmit_awaiting Sample.english].
Proof.
  apply (rerender_keeps_form (fst (mount Sample.full_env))
           {| checkout := Sample.bare_checkout; shippingCountries := [];
              isVisible := false; t := Sample.english |} []).
  reflexivity.
Defined.

(** *** Selecting the current country again *)

(** X7.  Selecting the value the country field already holds resets
    states, state, city and postcode and invokes [hideShippingOptions],
    but starts no lookup (the effect's dependency did not change): the
    state field is left as a disabled select without items. *)
Theorem reselecting_current_country (c : Component) (value : string) :
  country (formValues c) = value ->
  has_id_part value = true ->
  exists c',
    step c (CountryChange value) = Some (c', [hideShippingOptions]) /\
    formValues c' =
      {| country := value; states := Some []; state := ""; city := "";
         postcode := "" |} /\
    pending c' = pending c /\
    render_state_field (formValues c') = StateSelect true [] "".
Proof.
  intros Hc Hid. unfold has_id_part in Hid.
  assert (Ht : JS.truthy (country (formValues c)) = true).
  { rewrite Hc. destruct value; [discriminate | reflexivity]. }
  unfold step, onCountryChange, resetFormFieldsOnCountryChange.
  rewrite Ht, Hid.
  rewrite commit_quiet by (simpl; symmetry; exact Hc).
  eexists. split; [reflexivity |]. repeat split.
Qed.

Lemma reselecting_current_country_witness :
  exists c',
    step (fst (mount Sample.full_env)) (CountryChange "US-226") =
      Some (c', [hideShippingOptions]) /\
    pending c' = [fetchStates_awaiting (Number "226")] /\
    render_state_field (formValues c') = StateSelect true [] "".
Proof.
  destruct (reselecting_current_country (fst (mount Sample.full_env))
              "US-226" eq_refl eq_refl)
    as (c' & Hstep & _ & Hp & Hr).
  exists c'. split; [exact Hstep |]. split; [exact Hp | exact Hr].
Defined.

(** *** Counting along a run *)

Lemma step_toasts (c : Component) (ev : Event) c' effects :
  step c ev = Some (c', effects) ->
  length (toasts effects) = failed_submissions [ev].
Proof.
  intros Hstep.
  rewrite (step_effects _ _ _ _ Hstep), toasts_app, toasts_map,
    List.app_nil_r.
  destruct ev; simpl; try reflexivity.
  - rewrite onCountryChange_effects.
    destruct (JS.truthy _); reflexivity.
  - unfold step in Hstep.
    destruct (nth_error (pending c) i) as [[n | t1] |]; try discriminate.
    rewrite onSubmit_resume_toasts. unfold failed_submissions. simpl.
    destruct (String.eqb _ _); reflexivity.
Qed.

Lemma failed_submissions_cons (ev : Event) (evs : list Event) :
  failed_submissions (ev :: evs) =
  failed_submissions [ev] + failed_submissions evs.
Proof.
  unfold failed_submissions.
  change (ev :: evs) with ([ev] ++ evs).
  now rewrite filter_app, length_app.
Qed.

(** X8.  Along any sequence of events the component shows exactly one
    toast for each submission that resolves with status 'error', and
    none for anything else. *)
Theorem one_toast_per_failed_submission (evs : list Event) :
  forall c c' effects,
    run c evs = Some (c', effects) ->
    length (toasts effects) = failed_submissions evs.
Proof.
  induction evs as [| ev evs IH]; intros c c' effects Hrun.
  - simpl in Hrun. inversion Hrun; subst. reflexivity.
  - simpl in Hrun.
    destruct (step c ev) as [[c1 effs1] |] eqn:Hstep; [| discriminate].
    destruct (run c1 evs) as [[c2 effs2] |] eqn:Hrest; [| discriminate].
    inversion Hrun; subst.
    rewrite toasts_app, length_app, failed_submissions_cons.
    rewrite (step_toasts _ _ _ _ Hstep), (IH _ _ _ Hrest). reflexivity.
Qed.

Lemma one_toast_per_failed_submission_witness :
  exists c' effects,
    run (fst (mount Sample.full_env))
      [Submit []; Submit []; SubmitResolved 1 {| submit_status := "error" |};
       StatesResolved 0 Sample.failure;
       SubmitResolved 0 {| submit_status := "success" |}] =
      Some (c', effects) /\
    length (toasts effects) = 1.
Proof.
  destruct (run (fst (mount Sample.full_env))
              [Submit []; Submit [];
               SubmitResolved 1 {| submit_status := "error" |};
               StatesResolved 0 Sample.failure;
               SubmitResolved 0 {| submit_status := "success" |}])
    as [[c' effects] |] eqn:Hrun.
  - exists c', effects. split; [reflexivity |].
    exact (one_toast_per_failed_submission _ _ _ _ Hrun).
  - vm_compute in Hrun. discriminate.
Defined.

Lemma step_submitted (c : Component) (ev : Event) c' effects :
  step c ev = Some (c', effects) ->
  map fst (submit_calls effects) = submitted_forms [ev].
Proof.
  intros Hstep.
  rewrite (step_effects _ _ _ _ Hstep), submit_calls_app, submit_calls_map,
    List.app_nil_r, submit_calls_handler.
  destruct ev; reflexivity.
Qed.

(** X9.  Along any sequence of events [submitShippingInfo] is called
    once per submission of the form, with the submitted form data, in
    the order of the submissions. *)
Theorem one_call_per_submission (evs : list Event) :
  forall c c' effects,
    run c evs = Some (c', effects) ->
    map fst (submit_calls effects) = submitted_forms evs.
Proof.
  induction evs as [| ev evs IH]; intros c c' effects Hrun.
  - simpl in Hrun. inversion Hrun; subst. reflexivity.
  - simpl in Hrun.
    destruct (step c ev) as [[c1 effs1] |] eqn:Hstep; [| discriminate].
    destruct (run c1 evs) as [[c2 effs2] |] eqn:Hrest; [| discriminate].
    inversion Hrun; subst.
    rewrite submit_calls_app, map_app.
    rewrite (step_submitted _ _ _ _ Hstep), (IH _ _ _ Hrest).
    unfold submitted_forms.
    change (ev :: evs) with ([ev] ++ evs). now rewrite flat_map_app.
Qed.

Lemma one_call_per_submission_witness :
  exists c' effects,
    run (fst (mount Sample.full_env))
      [Submit [("city", "Austin")]; CityChange "Dallas";
       SubmitResolved 1 {| submit_status := "error" |};
       Submit [("city", "Dallas")]] = Some (c', effects) /\
    map fst (submit_calls effects) =
      [[("city", "Austin")]; [("city", "Dallas")]].
Proof.
  destruct (run (fst (mount Sample.full_env))
              [Submit [("city", "Austin")]; CityChange "Dallas";
               SubmitResolved 1 {| submit_status := "error" |};
               Submit [("city", "Dallas")]])
    as [[c' effects] |] eqn:Hrun.
  - exists c', effects. split; [reflexivity |].
    exact (one_call_per_submission _ _ _ _ Hrun).
  - vm_compute in Hrun. discriminate.
Defined.

Lemma effect_body_length (fv : FormValues) : length (effect_body fv) <= 1.
Proof.
  unfold effect_body.
  destruct (JS.truthy (country fv)); [| simpl; lia].
  destruct (countryId_of (country fv)) as [cid |]; [| simpl; lia].
  destruct (JS.truthy cid); simpl; lia.
Qed.

Lemma step_lookups (c : Component) (ev : Event) c' effects :
  step c ev = Some (c', effects) ->
  length (states_calls effects) <= length (filter may_run_effect [ev]).
Proof.
  intros Hstep.
  destruct (states_calls effects) as [| k ks] eqn:Hk; [simpl; lia |].
  assert (Hone : length (states_calls effects) <= 1).
  { rewrite (step_effects _ _ _ _ Hstep), states_calls_app,
      states_calls_handler, states_calls_map. simpl.
    destruct (deps_changed _ _ _ _); [apply effect_body_length | simpl; lia]. }
  rewrite Hk in Hone.
  destruct (step_states_calls _ _ _ _ Hstep)
    as [(v & -> & _) | (e' & -> & _)];
    [rewrite Hk; discriminate | exact Hone | exact Hone].
Qed.

(** X10.  The first render starts at most one lookup, and along any
    sequence of events the component starts at most one lookup per
    country selection or render by the parent: no other event starts
    one. *)
Theorem at_most_one_lookup_per_render (e : Env) (evs : list Event) :
  length (states_calls (snd (mount e))) <= 1 /\
  forall c c' effects,
    run c evs = Some (c', effects) ->
    length (states_calls effects) <= length (filter may_run_effect evs).
Proof.
  split.
  - unfold mount. cbv zeta. cbn [snd]. rewrite states_calls_map.
    apply effect_body_length.
  - induction evs as [| ev evs IH]; intros c c' effects Hrun.
    + simpl in Hrun. inversion Hrun; subst. simpl. lia.
    + simpl in Hrun.
      destruct (step c ev) as [[c1 effs1] |] eqn:Hstep; [| discriminate].
      destruct (run c1 evs) as [[c2 effs2] |] eqn:Hrest; [| discriminate].
      inversion Hrun; subst.
      rewrite states_calls_app, length_app.
      pose proof (step_lookups _ _ _ _ Hstep) as H1.
      pose proof (IH _ _ _ Hrest) as H2.
      change (ev :: evs) with ([ev] ++ evs).
      rewrite filter_app, length_app. lia.
Qed.

Lemma at_most_one_lookup_per_render_witness :
  exists c' effects,
    run (fst (mount Sample.full_env))
      [CountryChange "CA-38"; CityChange "Ottawa"; CountryChange "CA-38";
       StatesResolved 0 Sample.failure] = Some (c', effects) /\
    length (states_calls effects) <= 2.
Proof.
  destruct (run (fst (mount Sample.full_env))
              [CountryChange "CA-38"; CityChange "Ottawa";
               CountryChange "CA-38"; StatesResolved 0 Sample.failure])
    as [[c' effects] |] eqn:Hrun.
  - exists c', effects. split; [reflexivity |].
    exact (proj2 (at_most_one_lookup_per_render Sample.full_env _)
             _ _ _ Hrun).
  - vm_compute in Hrun. discriminate.
Defined.

Lemma step_hide_calls (c : Component) (ev : Event) c' effects :
  step c ev = Some (c', effects) ->
  hide_calls effects <= length (filter is_country_change [ev]).
Proof.
  intros Hstep.
  rewrite (step_effects _ _ _ _ Hstep), hide_calls_app, hide_calls_map,
    Nat.add_0_r.
  destruct ev; unfold handler_effects;
    try (unfold hide_calls; simpl; lia).
  - rewrite onCountryChange_effects.
    destruct (JS.truthy _); unfold hide_calls; simpl; lia.
  - destruct (nth_error (pending c) i) as [[n | t1] |];
      try (unfold hide_calls; simpl; lia).
    unfold onSubmit_resume.
    destruct (String.eqb _ _); unfold hide_calls; simpl; lia.
Qed.

(** X11.  Along any sequence of events [hideShippingOptions] is invoked
    at most once per country selection, and by nothing else: neither
    the arrival of states nor an edit, a submission or a render hides
    the shipping options. *)
Theorem hide_only_on_country_selection (evs : list Event) :
  forall c c' effects,
    run c evs = Some (c', effects) ->
    hide_calls effects <= length (filter is_country_change evs).
Proof.
  induction evs as [| ev evs IH]; intros c c' effects Hrun.
  - simpl in Hrun. inversion Hrun; subst. unfold hide_calls. simpl. lia.
  - simpl in Hrun.
    destruct (step c ev) as [[c1 effs1] |] eqn:Hstep; [| discriminate].
    destruct (run c1 evs) as [[c2 effs2] |] eqn:Hrest; [| discriminate].
    inversion Hrun; subst.
    rewrite hide_calls_app.
    pose proof (step_hide_calls _ _ _ _ Hstep) as H1.
    pose proof (IH _ _ _ Hrest) as H2.
    change (ev :: evs) with ([ev] ++ evs).
    rewrite filter_app, length_app. lia.
Qed.

Lemma hide_only_on_country_selection_witness :
  exists c' effects,
    run (fst (mount Sample.full_env))
      [StatesResolved 0 (Sample.ok [Sample.texas]); StateChange "Texas";
       Submit []; SubmitResolved 0 {| submit_status := "error" |}] =
      Some (c', effects) /\
    hide_calls effects <= 0.
Proof.
  destruct (run (fst (mount Sample.full_env))
              [StatesResolved 0 (Sample.ok [Sample.texas]);
               StateChange "Texas"; Submit [];
               SubmitResolved 0 {| submit_status := "error" |}])
    as [[c' effects] |] eqn:Hrun.
  - exists c', effects. split; [reflexivity |].
    exact (hide_only_on_country_selection _ _ _ _ Hrun).
  - vm_compute in Hrun. discriminate.
Defined.

(** *** The values of the country select *)

Lemma toString_injective (a b : N) : JS.toString a = JS.toString b -> a = b.
Proof.
  unfold JS.toString. intros H.
  apply (f_equal NilEmpty.uint_of_string) in H.
  rewrite !NilEmpty.usu in H. injection H as H.
  apply (f_equal N.of_uint) in H.
  now rewrite !DecimalN.Unsigned.of_to in H.
Qed.

Lemma split_country_value (k : ShippingCountry) :
  hyphen_free (countryCode k) = true ->
  JS.split "-" (country_value k) = [countryCode k; JS.toString (sc_id k)].
Proof.
  intros Hcode. unfold country_value.
  change ("-" ++ JS.toString (sc_id k))%string
    with (String "-" (JS.toString (sc_id k))).
  rewrite (split_prefix _ _ Hcode).
  now rewrite split_hyphen_free by apply string_of_uint_hyphen_free.
Qed.

(** X12.  The value of a country's select item identifies the country:
    for hyphen-free codes, two countries with the same item value have
    the same code and the same id, and splitting the value gives back
    the code and the decimal id. *)
Theorem country_value_identifies_country (a b : ShippingCountry) :
  hyphen_free (countryCode a) = true ->
  hyphen_free (countryCode b) = true ->
  JS.split "-" (country_value a) = [countryCode a; JS.toString (sc_id a)] /\
  (country_value a = country_value b ->
   countryCode a = countryCode b /\ sc_id a = sc_id b).
Proof.
  intros Ha Hb. split; [now apply split_country_value |].
  intros Heq. apply (f_equal (JS.split "-")) in Heq.
  rewrite (split_country_value a Ha), (split_country_value b Hb) in Heq.
  injection Heq as Hcode Hid.
  split; [exact Hcode | now apply toString_injective].
Qed.

Lemma country_value_identifies_country_witness :
  JS.split "-" (country_value Sample.us) = ["US"; "226"] /\
  (country_value Sample.us =
   country_value {| sc_id := 226; countryCode := "US"; sc_name := "USA" |} ->
   "US" = "US" /\ 226%N = 226%N).
Proof.
  apply (country_value_identifies_country Sample.us
           {| sc_id := 226; countryCode := "US"; sc_name := "USA" |});
    reflexivity.
Defined.

(** X13.  The country the form starts with is either empty or the value
    of one of the items of the country select, namely of a shipping
    country whose code is that of the pre-filled consignment's
    address. *)
Theorem initial_country_is_an_item (e : Env) :
  country (formValues (fst (mount e))) = "" \/
  exists k x,
    In (sc_id k, country (formValues (fst (mount e))), sc_name k)
      (country_items e) /\
    shippingConsignment (checkout e) = Some x /\
    countryCode k = addr_countryCode (address x).
Proof.
  destruct (selectedShippingCountry e) as [k |] eqn:Hsel.
  - right.
    unfold mount. cbn [fst formValues].
    rewrite (initial_country_of_match e k Hsel).
    unfold selectedShippingCountry, JS.find in Hsel.
    apply find_some in Hsel as [Hin Hmatch].
    destruct (shippingConsignment (checkout e)) as [x |]; [| discriminate].
    exists k, x. split; [| split; [reflexivity |]].
    + unfold country_items. apply in_map_iff. exists k. now split.
    + now apply countryCode_matches_spec.
  - left. unfold mount. cbn [fst formValues].
    now apply initial_country_no_match.
Qed.
